(** * Trivia API: a shallow embedding of [backend/flaskr/__init__.py]

    The request handlers of the Flask application are embedded as Rocq
    functions over an explicit data store.  Python values that travel in
    JSON bodies are values of [json]; a handler either returns a payload,
    aborts with an HTTP error ([abort(code, description)]) or raises a
    Python exception that nobody catches. *)

From stdpp Require Import base option list sorting gmap strings pretty.
From Stdlib Require Import ZArith Lia Ascii.

Local Open Scope string_scope.
Local Open Scope Z_scope.

(** ** JSON values, as [request.get_json()] delivers them

    Numbers are integers: the embedding does not cover floating point
    literals.  The members of an object are kept in document order; a
    repeated key takes its last value, as [json.loads] does. *)
#[warnings="-register-all"]
Inductive json : Type :=
| JNull
| JBool (b : bool)
| JNum (n : Z)
| JStr (s : string)
| JArr (items : list json)
| JObj (members : list (string * json)).

(** Python's truth value of a JSON value ([not v] is its negation). *)
Definition truthy (v : json) : bool :=
  match v with
  | JNull => false
  | JBool b => b
  | JNum n => negb (n =? 0)
  | JStr s => negb (bool_decide (s = ""))
  | JArr items => negb (bool_decide (length items = 0%nat))
  | JObj members => negb (bool_decide (length members = 0%nat))
  end.

(** Lookup in a parsed object: the last binding of the key. *)
Fixpoint dict_get (members : list (string * json)) (key : string) : option json :=
  match members with
  | [] => None
  | (k, v) :: rest =>
      match dict_get rest key with
      | Some v' => Some v'
      | None => if bool_decide (k = key) then Some v else None
      end
  end.

(** ** Exceptions and control flow *)

(** The exceptions the handlers can meet.  [SQLAlchemyError] stands for any
    error of the ORM or of the database driver. *)
Inductive pyexc : Type :=
| TypeError | KeyError | ValueError | IndexError | AttributeError | SQLAlchemyError.

(** The codes the handlers pass to [abort]. *)
Inductive http_error : Type := E400 | E404 | E405 | E422.

(** The description an HTTP error carries: werkzeug's built-in text (a
    [str]) when [abort] is given the code alone, the supplied object
    otherwise. *)
Inductive description : Type :=
| DefaultText
| Supplied (d : json).

(** What running a piece of handler code ends in. *)
Inductive outcome (A : Type) : Type :=
| Return (a : A)
| Abort (code : http_error) (d : description)
| Raise (e : pyexc).
Arguments Return {A} a.
Arguments Abort {A} code d.
Arguments Raise {A} e.

Definition bind {A B : Type} (m : outcome A) (k : A -> outcome B) : outcome B :=
  match m with
  | Return a => k a
  | Abort code d => Abort code d
  | Raise e => Raise e
  end.

Notation "'let?' x := m 'in' k" := (bind m (fun x => k))
  (at level 10, x name, m at level 100, k at level 200).

(** ** Python primitives *)

(** [v[key]] for a string key. *)
Definition subscript (v : json) (key : string) : outcome json :=
  match v with
  | JObj members =>
      match dict_get members key with
      | Some x => Return x
      | None => Raise KeyError
      end
  | _ => Raise TypeError
  end.

(** [body.get(key, None)]: only a dict has the method. *)
Definition get (body : json) (key : string) : outcome json :=
  match body with
  | JObj members => Return (default JNull (dict_get members key))
  | _ => Raise AttributeError
  end.

(** [v == n] for an integer [n]; [True] and [False] compare as 1 and 0. *)
Definition eq_int (v : json) (n : Z) : bool :=
  match v with
  | JNum m => m =? n
  | JBool b => (if b then 1 else 0) =? n
  | _ => false
  end.

(** [l[start:stop]]: a negative bound counts from the end, and both bounds
    are clamped to the list. *)
Definition py_slice {A : Type} (l : list A) (start stop : Z) : list A :=
  let n := Z.of_nat (length l) in
  let clamp i := if i <? 0 then Z.max (i + n) 0 else Z.min i n in
  let a := clamp start in
  let b := clamp stop in
  take (Z.to_nat (b - a)) (drop (Z.to_nat a) l).

(** [l[i]]: a negative index counts from the end. *)
Definition py_index {A : Type} (l : list A) (i : Z) : outcome A :=
  let n := Z.of_nat (length l) in
  let j := if i <? 0 then i + n else i in
  if (0 <=? j) && (j <? n) then
    match l !! Z.to_nat j with
    | Some x => Return x
    | None => Raise IndexError
    end
  else Raise IndexError.

(** [random.randint(a, b)]: [entropy] is the state of the generator; the
    draw is uniform over [a..b], and an empty range is a [ValueError]. *)
Definition randint (entropy : Z) (a b : Z) : outcome Z :=
  if b <? a then Raise ValueError
  else Return (a + entropy mod (b - a + 1)).

(** ** The data store

    Modelled from the spec: [models.py] is not among the sources.  A
    question has an id, a question text, an answer text, a category (the id
    of a category, kept as text) and an integer difficulty; a category has an
    id and a type.  [format()] of a question is the dict of its five
    columns, [format()] of a category the pair of its two. *)
Record Question : Type := mkQuestion {
  q_id : Z;
  q_question : string;
  q_answer : string;
  q_category : string;
  q_difficulty : Z
}.

Record Category : Type := mkCategory {
  c_id : Z;
  c_type : string
}.

(** The two tables, rows in the order [query.all()] yields them. *)
Record db : Type := mkDb {
  db_questions : list Question;
  db_categories : list Category
}.

Definition Question_format (q : Question) : json :=
  JObj [("id", JNum (q_id q));
        ("question", JStr (q_question q));
        ("answer", JStr (q_answer q));
        ("category", JStr (q_category q));
        ("difficulty", JNum (q_difficulty q))].

Definition Category_format (c : Category) : Z * string := (c_id c, c_type c).

(** [Question.query.order_by(Question.id)] on a selection. *)
Definition id_le (q1 q2 : Question) : Prop := q_id q1 <= q_id q2.

#[local] Instance id_le_dec : RelDecision id_le.
Proof. intros q1 q2. unfold id_le. apply _. Defined.

#[local] Instance id_le_total : Total id_le.
Proof. intros q1 q2. unfold id_le. lia. Qed.

#[local] Instance id_le_trans : Transitive id_le.
Proof. intros q1 q2 q3. unfold id_le. lia. Qed.

Definition order_by_id (selection : list Question) : list Question :=
  merge_sort id_le selection.

(** ** Requests *)

(** What [request.get_json()] finds in the request. *)
Inductive json_payload : Type :=
| NoJson
| Malformed
| Json (v : json).

(** [args_page] is the [page] query parameter after the conversion
    [type=int]; it is [None] when the parameter is absent or is no
    integer, and the handlers then read 1. *)
Record request : Type := mkRequest {
  args_page : option Z;
  payload : json_payload
}.

(** [request.get_json()]: [None] (the value [JNull]) without a JSON body,
    400 on a body that does not parse. *)
Definition get_json (req : request) : outcome json :=
  match payload req with
  | NoJson => Return JNull
  | Malformed => Abort E400 DefaultText
  | Json v => Return v
  end.

(** ** Pagination helper (lines 27-39) *)

Definition QUESTIONS_PER_PAGE : Z := 10.

Definition page_of (req : request) : Z := default 1 (args_page req).

Definition paginate_questions (req : request) (selection : list Question) : list json :=
  let page := page_of req in
  let start := (page - 1) * QUESTIONS_PER_PAGE in
  let end_ := start + QUESTIONS_PER_PAGE in
  let questions := map Question_format selection in
  py_slice questions start end_.

(** The slice as the specification words it: the records at the indices
    [i] with [a <= i < b], in order. *)
Fixpoint slice_from {A : Type} (i : Z) (l : list A) (a b : Z) : list A :=
  match l with
  | [] => []
  | x :: rest =>
      (if (a <=? i) && (i <? b) then [x] else []) ++ slice_from (i + 1) rest a b
  end.

Definition spec_slice {A : Type} (l : list A) (a b : Z) : list A := slice_from 0 l a b.

(** ** Handlers: state and control flow

    A handler runs against the data store and ends in an [outcome]; only
    an insertion changes the store. *)
Definition handler (A : Type) : Type := db -> outcome A * db.

Definition lift {A : Type} (o : outcome A) : handler A := fun s => (o, s).

Definition abort {A : Type} (code : http_error) (d : description) : handler A :=
  lift (Abort code d).

Definition query {A : Type} (f : db -> A) : handler A := fun s => (Return (f s), s).

Definition bind_h {A B : Type} (m : handler A) (k : A -> handler B) : handler B :=
  fun s =>
    match m s with
    | (Return a, s') => k a s'
    | (Abort code d, s') => (Abort code d, s')
    | (Raise e, s') => (Raise e, s')
    end.

Notation "'let!' x := m 'in' k" := (bind_h m (fun x => k))
  (at level 10, x name, m at level 100, k at level 200).

(** [try: body except: fallback]: a bare [except] catches every exception,
    those of [abort] included. *)
Definition try_except {A : Type} (body fallback : handler A) : handler A :=
  fun s =>
    match body s with
    | (Return a, s') => (Return a, s')
    | (_, s') => fallback s'
    end.

(** ** What lies outside the sources

    The handlers hand JSON values of any shape to Python built-ins, to the
    ORM and, through it, to the database.  What these do with a value of
    the expected type is written out below; what they do with any other
    value is a parameter of the development. *)
Record Backend : Type := mkBackend {
  (** [str(v)] of a list or a dict *)
  py_repr : json -> string;
  (** a value that is no [str], bound as the operand of [LIKE]: its text,
      or [None] when the driver or the database rejects it *)
  foreign_text : json -> option string;
  (** a value that is neither an [int] nor [None], compared with the
      integer column [id]: [Some None] is SQL's NULL *)
  foreign_integer : json -> option (option Z);
  (** a value that is no list, given to [notin_] *)
  foreign_sequence : json -> option (list json);
  (** [Question(question=, answer=, category=, difficulty=).insert()]: the
      id of the new row and the store with it, or [None] when the
      insertion raises (nothing is committed then) *)
  Question_insert : json -> json -> json -> json -> db -> option (Z * db)
}.

(** [str(v)] *)
Definition py_str (B : Backend) (v : json) : string :=
  match v with
  | JStr s => s
  | JNum n => pretty n
  | JBool true => "True"
  | JBool false => "False"
  | JNull => "None"
  | _ => py_repr B v
  end.

(** *** SQL operators *)

(** [text LIKE pattern] as PostgreSQL evaluates it: [%] matches any run of
    characters, [_] any one character, and a backslash takes the character
    after it literally.  No pattern built below ends in a lone backslash.
    A character is one [ascii] of the text: the embedding covers texts of
    8-bit characters, and [_] does not stand for a character that takes
    several bytes. *)
Fixpoint like (pattern : string) : string -> bool :=
  match pattern with
  | EmptyString => fun s => match s with EmptyString => true | _ => false end
  | String c rest =>
      if Ascii.eqb c "%"%char then
        fix star (s : string) : bool :=
          like rest s || match s with EmptyString => false | String _ s' => star s' end
      else if Ascii.eqb c "_"%char then
        fun s => match s with EmptyString => false | String _ s' => like rest s' end
      else if Ascii.eqb c "\"%char then
        match rest with
        | EmptyString => fun _ => false
        | String c' rest' =>
            fun s =>
              match s with
              | EmptyString => false
              | String d s' => Ascii.eqb c' d && like rest' s'
              end
        end
      else
        fun s =>
          match s with
          | EmptyString => false
          | String d s' => Ascii.eqb c d && like rest s'
          end
  end.

(** [Question.query.filter(Question.question.contains(term)).all()]:
    SQLAlchemy renders [contains] as [question LIKE '%' || term || '%'] and
    does not escape the term. *)
Definition Question_contains (B : Backend) (term : json) : handler (list Question) :=
  let operand := match term with JStr s => Some s | _ => foreign_text B term end in
  match operand with
  | Some t =>
      query (fun s => filter (fun q => like ("%" +:+ t +:+ "%") (q_question q) = true) (db_questions s))
  | None => lift (Raise SQLAlchemyError)
  end.

(** [id NOT IN (values)]: true when every value is an integer other than
    [id]; a NULL among the values makes it NULL or false, and the row is
    not selected. *)
Definition sql_notin (id : Z) (values : list (option Z)) : bool :=
  forallb (fun v => match v with Some z => negb (id =? z) | None => false end) values.

Definition integer_operand (B : Backend) (v : json) : option (option Z) :=
  match v with
  | JNum z => Some (Some z)
  | JNull => Some None
  | _ => foreign_integer B v
  end.

(** [.filter(Question.id.notin_(previous_questions))] on a selection. *)
Definition notin_ (B : Backend) (previous_questions : json) (selection : list Question)
  : outcome (list Question) :=
  let items := match previous_questions with
               | JArr items => Some items
               | _ => foreign_sequence B previous_questions
               end in
  match items with
  | None => Raise SQLAlchemyError
  | Some items =>
      match mapM (integer_operand B) items with
      | None => Raise SQLAlchemyError
      | Some values => Return (filter (fun q => sql_notin (q_id q) values = true) selection)
      end
  end.

(** Modelled from the spec: [models.py] is not among the sources, and
    line 216 compares the category column with the integer of the route.
    The column holds the id as text, and it equals an integer when it is
    that integer's decimal notation. *)
Definition category_is (category_id : Z) (q : Question) : Prop :=
  q_category q = pretty category_id.

#[local] Instance category_is_dec (category_id : Z) (q : Question) :
  Decision (category_is category_id q).
Proof. unfold category_is. apply _. Defined.

(** ** Responses *)

(** The payloads the handlers pass to [jsonify]; each of them carries
    ['success': True]. *)
Inductive response : Type :=
| CategoriesResponse (categories_ : gmap Z string)
| QuestionsResponse (questions_ : list json) (total_questions : nat)
    (categories_ : gmap Z string)
| SearchResponse (questions_ : list json) (total_questions : nat)
    (current_category : gmap Z string)
| CreatedResponse (created : Z) (questions_ : list json) (total_questions : nat)
| CategoryQuestionsResponse (questions_ : list json) (total_questions : nat)
    (current_category : Z)
| QuizResponse (question : json).

(** The loop [categories_returned[cat['id']] = cat['type']]. *)
Definition categories_returned (all_categories : list (Z * string)) : gmap Z string :=
  foldl (fun m cat => <[cat.1 := cat.2]> m) ∅ all_categories.

Definition is_empty {A : Type} (l : list A) : bool :=
  match l with [] => true | _ => false end.

(** ** GET /categories (lines 45-61) *)
Definition get_all_categories : handler response :=
  let! categories := query db_categories in
  if is_empty categories then abort E405 DefaultText
  else
    let all_categories := map Category_format categories in
    lift (Return (CategoriesResponse (categories_returned all_categories))).

(** ** GET /questions (lines 69-89) *)
Definition get_questions_for_page (req : request) : handler response :=
  let! all_questions := query (fun s => order_by_id (db_questions s)) in
  let questions_paginated := paginate_questions req all_questions in
  if bool_decide (length questions_paginated = 0%nat) then abort E404 DefaultText
  else
    let! categories := query db_categories in
    let categories_all := map Category_format categories in
    lift (Return (QuestionsResponse questions_paginated (length all_questions)
                    (categories_returned categories_all))).

(** ** POST /questions (lines 121-199) *)

Definition mandatory (field : string) : description :=
  Supplied (JObj [("message", JStr (field +:+ " is a mandatory field"))]).

(** The search branch (lines 130-154). *)
Definition search_questions (B : Backend) (search_term : json) : handler response :=
  let! questions := Question_contains B search_term in
  if is_empty questions then abort E404 DefaultText
  else
    let questions_found := map Question_format questions in
    let! selections := query (fun s => order_by_id (db_questions s)) in
    let! categories := query db_categories in
    let categories_all := map Category_format categories in
    lift (Return (SearchResponse questions_found (length selections)
                    (categories_returned categories_all))).

(** The create branch (lines 156-199). *)
Definition create_question (B : Backend) (req : request) (body : json) : handler response :=
  let! new_question := lift (get body "question") in
  let! new_answer := lift (get body "answer") in
  let! new_category := lift (get body "category") in
  let! new_difficulty := lift (get body "difficulty") in
  if negb (truthy new_question) then abort E400 (mandatory "Question")
  else if negb (truthy new_answer) then abort E400 (mandatory "Answer")
  else if negb (truthy new_category) then abort E400 (mandatory "Category")
  else if negb (truthy new_difficulty) then abort E400 (mandatory "Difficulty")
  else
    try_except
      (let! question_id := (fun s =>
           match Question_insert B new_question new_answer new_category new_difficulty s with
           | Some (id, s') => (Return id, s')
           | None => (Raise SQLAlchemyError, s)
           end) in
       let! selections := query (fun s => order_by_id (db_questions s)) in
       let questions_paginated := paginate_questions req selections in
       lift (Return (CreatedResponse question_id questions_paginated (length selections))))
      (abort E422 DefaultText).

Definition create_or_search_questions (B : Backend) (req : request) : handler response :=
  let! body := lift (get_json req) in
  if negb (truthy body) then abort E400 DefaultText
  else
    let! search_term := lift (get body "searchTerm") in
    if truthy search_term then search_questions B search_term
    else create_question B req body.

(** ** GET /categories/<int:category_id>/questions (lines 211-239) *)

Definition category_selection (category_id : Z) (s : db) : list Question :=
  if negb (category_id =? 0) then
    order_by_id (filter (category_is category_id) (db_questions s))
  else order_by_id (db_questions s).

Definition no_questions_in_page : description :=
  Supplied (JObj [("message", JStr "No questions in selected page.")]).

Definition get_questions_from_categories (req : request) (category_id : Z) : handler response :=
  let! selection := query (category_selection category_id) in
  if is_empty selection then abort E400 DefaultText
  else
    let questions_paginated := paginate_questions req selection in
    if is_empty questions_paginated then abort E404 no_questions_in_page
    else
      lift (Return (CategoryQuestionsResponse questions_paginated (length selection)
                      category_id)).

(** ** POST /quizzes (lines 253-294) *)

Definition provide_a_body : description :=
  Supplied (JObj [("message",
    JStr "Please provide a JSON body with previous question Ids and optional category.")]).

(** [current_category and current_category['id'] != 0] *)
Definition category_given (current_category : json) : outcome bool :=
  if truthy current_category then
    let? id := subscript current_category "id" in
    Return (negb (eq_int id 0))
  else Return false.

(** [.filter(Question.category == str(current_category['id']))] *)
Definition in_category (B : Backend) (current_category : json) (selection : list Question)
  : outcome (list Question) :=
  let? id := subscript current_category "id" in
  Return (filter (fun q => q_category q = py_str B id) selection).

(** The four queries of lines 265-285. *)
Definition quiz_candidates (B : Backend) (previous_questions current_category : json)
    (s : db) : outcome (list Question) :=
  if negb (truthy previous_questions) then
    let? given := category_given current_category in
    if given then in_category B current_category (db_questions s)
    else Return (db_questions s)
  else
    let? given := category_given current_category in
    if given then
      let? selection := in_category B current_category (db_questions s) in
      notin_ B previous_questions selection
    else notin_ B previous_questions (db_questions s).

Definition play_quiz (B : Backend) (entropy : Z) (req : request) : handler response :=
  let! body := lift (get_json req) in
  if negb (truthy body) then abort E400 provide_a_body
  else
    let! previous_questions := lift (get body "previous_questions") in
    let! current_category := lift (get body "quiz_category") in
    let! questions_raw := (fun s => (quiz_candidates B previous_questions current_category s, s)) in
    let questions_formatted := map Question_format questions_raw in
    let! index := lift (randint entropy 0 (Z.of_nat (length questions_formatted) - 1)) in
    let! random_question := lift (py_index questions_formatted index) in
    lift (Return (QuizResponse random_question)).

(** ** Error handlers (lines 301-347) *)

Definition getErrorMessage (d : description) (default_text : string) : outcome json :=
  let message := match d with
                 | DefaultText => Raise TypeError
                 | Supplied v => subscript v "message"
                 end in
  match message with
  | Raise TypeError => Return (JStr default_text)
  | other => other
  end.

Record error_body : Type := mkError {
  success : bool;
  error : Z;
  message : json
}.

(** What the client receives: the status code and the JSON body. *)
Inductive http_response : Type :=
| Ok (status : Z) (body : response)
| Failed (status : Z) (body : error_body).

Definition bad_request (d : description) : outcome http_response :=
  let? m := getErrorMessage d "bad request" in
  Return (Failed 400 (mkError false 400 m)).

Definition ressource_not_found (d : description) : outcome http_response :=
  let? m := getErrorMessage d "resource not found" in
  Return (Failed 404 (mkError false 404 m)).

Definition method_not_allowed (d : description) : outcome http_response :=
  Return (Failed 405 (mkError false 405 (JStr "method not allowed"))).

Definition unprocessable (d : description) : outcome http_response :=
  let? m := getErrorMessage d "unprocessable" in
  Return (Failed 422 (mkError false 422 m)).

Definition internal_server_error : http_response :=
  Failed 500 (mkError false 500 (JStr "internal server error")).

Definition errorhandler (code : http_error) : description -> outcome http_response :=
  match code with
  | E400 => bad_request
  | E404 => ressource_not_found
  | E405 => method_not_allowed
  | E422 => unprocessable
  end.

(** Flask's dispatch around a handler: a payload is sent with status 200,
    an HTTP error goes to its registered handler, and an exception nobody
    caught, in the route or in an error handler, ends in the handler
    for 500. *)
Definition dispatch (o : outcome response) : http_response :=
  match o with
  | Return body => Ok 200 body
  | Abort code d =>
      match errorhandler code d with
      | Return r => r
      | _ => internal_server_error
      end
  | Raise _ => internal_server_error
  end.

(** ** A backend and a store for the examples

    The backend rejects every value of an unexpected type.  An insertion
    takes texts for the question, the answer and the category and an
    integer for the difficulty, and gives the row the id after the
    largest one. *)
Definition next_id (rows : list Question) : Z :=
  1 + foldr Z.max 0 (map q_id rows).

Definition strict : Backend :=
  {| py_repr := fun _ => "";
     foreign_text := fun _ => None;
     foreign_integer := fun _ => None;
     foreign_sequence := fun _ => None;
     Question_insert := fun question answer category difficulty s =>
       match question, answer, category, difficulty with
       | JStr q, JStr a, JStr c, JNum d =>
           let id := next_id (db_questions s) in
           Some (id, mkDb (db_questions s ++ [mkQuestion id q a c d]) (db_categories s))
       | _, _, _, _ => None
       end |}.

Definition trivia : db :=
  mkDb [mkQuestion 2 "Which planet is closest to the sun?" "Mercury" "1" 2;
        mkQuestion 1 "What is the heaviest organ?" "The liver" "1" 4;
        mkQuestion 5 "Who painted La Giaconda?" "Da Vinci" "2" 3;
        mkQuestion 9 "Which dung beetle was worshipped?" "Scarab" "4" 4]
       [mkCategory 1 "Science"; mkCategory 2 "Art"; mkCategory 4 "History"].

Definition post (body : json) : request := mkRequest None (Json body).

(** ** The specification's notions, to compare the handlers with *)

(** [term] is a substring of [text], character for character. *)
Fixpoint starts_with (term text : string) : bool :=
  match term, text with
  | EmptyString, _ => true
  | String c term', String d text' => Ascii.eqb c d && starts_with term' text'
  | String _ _, EmptyString => false
  end.

Fixpoint any_suffix (test : string -> bool) (text : string) : bool :=
  test text
  || match text with
     | EmptyString => false
     | String _ text' => any_suffix test text'
     end.

Definition occurs_in (term text : string) : bool := any_suffix (starts_with term) text.

(** A term without the characters that [LIKE] reads specially. *)
Fixpoint plain (term : string) : bool :=
  match term with
  | EmptyString => true
  | String c term' =>
      negb (Ascii.eqb c "%"%char) && negb (Ascii.eqb c "_"%char)
      && negb (Ascii.eqb c "\"%char) && plain term'
  end.

(** The fields a new question needs, in the order of the checks, each with
    the name its message uses; the first of them that the body lacks or
    holds a false value for. *)
Definition required_fields : list (string * string) :=
  [("question", "Question"); ("answer", "Answer");
   ("category", "Category"); ("difficulty", "Difficulty")].

Definition first_missing (members : list (string * json)) : option string :=
  snd <$> List.find (fun field => negb (truthy (default JNull (dict_get members field.1))))
            required_fields.

(** ** DELETE /questions/<int:question_id> (lines 98-111) *)

(** [query.one_or_none()]: the row, [None] without one, and an error of
    the ORM when the query yields several rows. *)
Definition one_or_none (rows : list Question) : outcome (option Question) :=
  match rows with
  | [] => Return None
  | [q] => Return (Some q)
  | _ => Raise SQLAlchemyError
  end.

(** Modelled from the spec: [models.py] is not among the sources.
    [question.delete()] removes the row of the question, found by its id,
    and commits; [raises] tells when the database refuses, and nothing is
    committed then. *)
Definition Question_delete (raises : Question -> db -> bool) (q : Question) : handler unit :=
  fun s =>
    if raises q s then (Raise SQLAlchemyError, s)
    else (Return tt,
          mkDb (filter (fun row => q_id row <> q_id q) (db_questions s)) (db_categories s)).

(** The handler; its payload is ['success': True, 'deleted': question_id]. *)
Definition delete_question_by_id (raises : Question -> db -> bool) (question_id : Z)
  : handler Z :=
  let! question :=
    (fun s => (one_or_none (filter (fun q => q_id q = question_id) (db_questions s)), s)) in
  match question with
  | None => abort E404 DefaultText
  | Some q =>
      try_except
        (let! _ := Question_delete raises q in
         lift (Return question_id))
        (abort E422 DefaultText)
  end.

(** A term without the escape character of [LIKE]. *)
Fixpoint no_backslash (term : string) : bool :=
  match term with
  | EmptyString => true
  | String c term' => negb (Ascii.eqb c "\"%char) && no_backslash term'
  end.

(** The status an error handler answers with. *)
Definition status_of (code : http_error) : Z :=
  match code with
  | E400 => 400
  | E404 => 404
  | E405 => 405
  | E422 => 422
  end.


(** A description the error mapper can read: none, or an object whose
    [message] is a text, which is then the message of the answer. *)
Definition readable (code : http_error) (d : description) : Prop :=
  d = DefaultText
  \/ exists members m,
       d = Supplied (JObj members)
       /\ dict_get members "message" = Some (JStr m)
       /\ dispatch (Abort code d)
          = Failed (status_of code) (mkError false (status_of code) (JStr m)).

(** * Properties *)

(** ** Slicing *)

Lemma slice_from_take_drop {A : Type} (l : list A) (i a b : Z) :
  slice_from i l a b
  = take (Z.to_nat (b - Z.max a i)) (drop (Z.to_nat (a - i)) l).
Proof.
  revert i. induction l as [|x rest IH]; intros i; simpl.
  - by rewrite drop_nil, take_nil.
  - rewrite IH. destruct (Z.leb_spec a i) as [Hai|Hai]; simpl.
    + replace (Z.to_nat (a - i)) with 0%nat by lia.
      replace (Z.to_nat (a - (i + 1))) with 0%nat by lia.
      rewrite !drop_0, !Z.max_r by lia.
      destruct (Z.ltb_spec i b) as [Hib|Hib]; simpl.
      * replace (Z.to_nat (b - i)) with (S (Z.to_nat (b - (i + 1)))) by lia.
        done.
      * replace (Z.to_nat (b - i)) with 0%nat by lia.
        replace (Z.to_nat (b - (i + 1))) with 0%nat by lia.
        by rewrite !take_0.
    + replace (Z.to_nat (a - i)) with (S (Z.to_nat (a - (i + 1)))) by lia.
      simpl. by rewrite !Z.max_l by lia.
Qed.

Lemma spec_slice_take_drop {A : Type} (l : list A) (a b : Z) :
  0 <= a -> spec_slice l a b = take (Z.to_nat (b - a)) (drop (Z.to_nat a) l).
Proof.
  intros Ha. unfold spec_slice. rewrite slice_from_take_drop.
  by rewrite Z.max_l, Z.sub_0_r by lia.
Qed.

Lemma take_clamped {A : Type} (l : list A) (k m : nat) :
  (Nat.min k (length l) <= m <= k)%nat -> take m l = take k l.
Proof.
  intros [Hlo Hhi]. destruct (decide (k <= length l)%nat) as [Hk|Hk].
  - by replace m with k by lia.
  - rewrite !take_ge by lia. done.
Qed.

Lemma py_slice_nonneg {A : Type} (l : list A) (a b : Z) :
  0 <= a -> a <= b -> py_slice l a b = take (Z.to_nat (b - a)) (drop (Z.to_nat a) l).
Proof.
  intros Ha Hab. unfold py_slice.
  destruct (Z.ltb_spec a 0) as [?|_]; [lia|].
  destruct (Z.ltb_spec b 0) as [?|_]; [lia|].
  set (n := Z.of_nat (length l)).
  destruct (decide (n <= a)) as [Hn|Hn].
  - rewrite !(drop_ge l) by lia. by rewrite !take_nil.
  - rewrite (Z.min_l a n) by lia.
    apply take_clamped. rewrite length_drop. lia.
Qed.

Lemma py_slice_before_start {A : Type} (l : list A) (a : Z) :
  a < 0 -> py_slice l a 0 = [].
Proof.
  intros Ha. unfold py_slice.
  destruct (Z.ltb_spec a 0) as [_|?]; [|lia].
  destruct (Z.ltb_spec 0 0) as [?|_]; [lia|].
  replace (Z.to_nat _) with 0%nat by lia. apply take_0.
Qed.

(** C8.  For a page number [p >= 0] the helper returns the records of the
    formatted list [L] at the indices from [(p-1)*10] inclusive to [p*10]
    exclusive; it is the empty list when [(p-1)*10] is at or beyond the
    length of [L]; without a [page] parameter it is the slice of page 1.
    The helper is a function of the request and the selection alone: it
    neither reads nor changes the data store. *)
Theorem paginate_questions_slice (p : Z) (sent : json_payload) (selection : list Question) :
  0 <= p ->
  let L := map Question_format selection in
  paginate_questions (mkRequest (Some p) sent) selection
    = spec_slice L ((p - 1) * 10) (p * 10)
  /\ (Z.of_nat (length L) <= (p - 1) * 10 ->
      paginate_questions (mkRequest (Some p) sent) selection = [])
  /\ paginate_questions (mkRequest None sent) selection = spec_slice L 0 10.
Proof.
  intros Hp L. unfold paginate_questions, page_of, QUESTIONS_PER_PAGE. simpl.
  fold L. split; [|split].
  - destruct (decide (p = 0)) as [->|Hp0].
    + simpl. rewrite py_slice_before_start by lia.
      unfold spec_slice. rewrite slice_from_take_drop.
      by replace (Z.to_nat _) with 0%nat by lia.
    + rewrite py_slice_nonneg, spec_slice_take_drop by lia.
      by replace ((p - 1) * 10 + 10 - (p - 1) * 10) with (p * 10 - (p - 1) * 10) by lia.
  - intros Hlen. destruct (decide (p = 0)) as [->|Hp0].
    + apply py_slice_before_start. lia.
    + rewrite py_slice_nonneg by lia. rewrite drop_ge by lia. apply take_nil.
  - rewrite py_slice_nonneg, spec_slice_take_drop by lia. done.
Qed.

(** Page 2 of twelve questions holds the last two. *)
Lemma paginate_questions_slice_witness :
  0 <= 2
  /\ paginate_questions (mkRequest (Some 2) NoJson)
       (map (fun i => mkQuestion i "q" "a" "1" 1) (seqZ 1 12))
     = [Question_format (mkQuestion 11 "q" "a" "1" 1);
        Question_format (mkQuestion 12 "q" "a" "1" 1)].
Proof.
  split; [lia|].
  destruct (paginate_questions_slice 2 NoJson
              (map (fun i => mkQuestion i "q" "a" "1" 1) (seqZ 1 12)))
    as [H _]; [lia|].
  rewrite H. vm_compute. reflexivity.
Defined.

(** ** Python primitives *)

Lemma py_index_elem {A : Type} (l : list A) (i : Z) (x : A) :
  py_index l i = Return x -> x ∈ l.
Proof.
  unfold py_index. intros H.
  destruct (_ && _); [|done].
  destruct (l !! _) as [y|] eqn:Hy; [|done].
  injection H as ->. by eapply list_elem_of_lookup_2.
Qed.

Lemma truthy_members (members : list (string * json)) :
  members <> [] -> truthy (JObj members) = true.
Proof. by destruct members. Qed.

Lemma truthy_object (members : list (string * json)) (key : string) (v : json) :
  dict_get members key = Some v -> truthy (JObj members) = true.
Proof. by destruct members. Qed.

(** Enter a handler whose request carries the non-empty object [members]:
    the body is read and passes the check [if not body]. *)
Ltac read_body Hreq Hmembers :=
  unfold bind_h, lift, get_json;
  rewrite Hreq, (truthy_members _ Hmembers);
  cbn [negb fst snd].

(** ** The quiz *)

Lemma sql_notin_integer (id : Z) (values : list (option Z)) :
  sql_notin id values = true -> Some id ∉ values.
Proof.
  unfold sql_notin. rewrite forallb_forall. intros Hall Hin.
  apply list_elem_of_In in Hin. specialize (Hall _ Hin). simpl in Hall.
  rewrite Z.eqb_refl in Hall. done.
Qed.

Lemma notin_spec (B : Backend) (items : list json) (selection out : list Question) :
  notin_ B (JArr items) selection = Return out ->
  forall q, q ∈ out -> q ∈ selection /\ JNum (q_id q) ∉ items.
Proof.
  unfold notin_. destruct (mapM _ items) as [values|] eqn:Hvalues; [|done].
  intros [= <-] q [Hnotin Hq]%list_elem_of_filter. split; [done|].
  intros Hin. apply sql_notin_integer in Hnotin. apply Hnotin.
  apply mapM_Some in Hvalues.
  destruct (proj1 (list_elem_of_lookup _ _) Hin) as [k Hk].
  destruct (Forall2_lookup_l _ _ _ _ _ Hvalues Hk) as (v & Hv & Hop).
  simpl in Hop. injection Hop as <-. by eapply list_elem_of_lookup_2.
Qed.

Lemma in_category_elem (B : Backend) (current_category : json)
    (selection out : list Question) :
  in_category B current_category selection = Return out ->
  forall q, q ∈ out -> q ∈ selection.
Proof.
  unfold in_category, bind. destruct (subscript _ _); [|done..].
  intros [= <-] q Hq. by apply list_elem_of_filter in Hq as [_ ?].
Qed.

Lemma quiz_candidates_previous (B : Backend) (items : list json) (current_category : json)
    (s : db) (out : list Question) :
  items <> [] ->
  quiz_candidates B (JArr items) current_category s = Return out ->
  forall q, q ∈ out -> q ∈ db_questions s /\ JNum (q_id q) ∉ items.
Proof.
  intros Hitems. unfold quiz_candidates.
  replace (truthy (JArr items)) with true by (by destruct items).
  simpl. unfold bind.
  destruct (category_given current_category) as [[|]| |]; [| |done..].
  - destruct (in_category B current_category (db_questions s)) as [sel| |] eqn:Hsel;
      [|done..].
    intros Hout q Hq. destruct (notin_spec _ _ _ _ Hout q Hq) as [Hin Hnot].
    split; [|done]. by eapply in_category_elem.
  - apply notin_spec.
Qed.

(** C1.  When the body supplies a non-empty list [previous_questions], a
    question that POST /quizzes returns carries an id that is not in the
    list, whatever category the body asks for. *)
Theorem play_quiz_not_previous (B : Backend) (entropy : Z) (req : request) (s s' : db)
    (members : list (string * json)) (items : list json) (question : json) :
  payload req = Json (JObj members) ->
  dict_get members "previous_questions" = Some (JArr items) ->
  items <> [] ->
  play_quiz B entropy req s = (Return (QuizResponse question), s') ->
  exists id : Z, subscript question "id" = Return (JNum id) /\ JNum id ∉ items.
Proof.
  intros Hreq Hprev Hitems. unfold play_quiz, bind_h, lift, get_json.
  rewrite Hreq, (truthy_object _ _ _ Hprev). simpl. rewrite Hprev. simpl.
  destruct (quiz_candidates _ _ _ _) as [out| |] eqn:Hout; [|done..].
  destruct (randint _ _ _) as [index| |]; [|done..].
  destruct (py_index _ _) as [picked| |] eqn:Hpicked; [|done..].
  intros [= <- <-].
  apply py_index_elem, list_elem_of_fmap in Hpicked as (q & -> & Hq).
  exists (q_id q). split; [done|].
  by destruct (quiz_candidates_previous _ _ _ _ _ Hitems Hout q Hq).
Qed.

(** The request of [test_play_quiz_without_category]. *)
Lemma play_quiz_not_previous_witness :
  let body := [("previous_questions", JArr [JNum 1; JNum 2; JNum 5])] in
  let picked := Question_format (mkQuestion 9 "Which dung beetle was worshipped?" "Scarab" "4" 4) in
  payload (post (JObj body)) = Json (JObj body)
  /\ dict_get body "previous_questions" = Some (JArr [JNum 1; JNum 2; JNum 5])
  /\ [JNum 1; JNum 2; JNum 5] <> []
  /\ play_quiz strict 7 (post (JObj body)) trivia = (Return (QuizResponse picked), trivia)
  /\ exists id : Z,
       subscript picked "id" = Return (JNum id) /\ JNum id ∉ [JNum 1; JNum 2; JNum 5].
Proof.
  intros body picked.
  split; [reflexivity|]. split; [reflexivity|]. split; [discriminate|].
  split; [vm_compute; reflexivity|].
  apply (play_quiz_not_previous strict 7 (post (JObj body)) trivia trivia body
           [JNum 1; JNum 2; JNum 5] picked);
    [reflexivity | reflexivity | discriminate | vm_compute; reflexivity].
Defined.

Lemma notin_integers (B : Backend) (ids : list Z) (selection : list Question) :
  notin_ B (JArr (JNum <$> ids)) selection
  = Return (filter (fun q => q_id q ∉ ids) selection).
Proof.
  unfold notin_.
  assert (mapM (integer_operand B) (JNum <$> ids) = Some (Some <$> ids)) as ->.
  { apply mapM_Some. induction ids; constructor; done. }
  f_equal. apply list_filter_iff. intros q. split.
  - intros Hnotin Hin. apply (sql_notin_integer _ _ Hnotin).
    by apply list_elem_of_fmap_2.
  - intros Hnot. unfold sql_notin. apply forallb_forall.
    intros v [id [-> Hid]]%list_elem_of_In%list_elem_of_fmap.
    apply negb_true_iff, Z.eqb_neq. by intros <-.
Qed.

Lemma category_given_zero (members : list (string * json)) :
  dict_get members "id" = Some (JNum 0) -> category_given (JObj members) = Return false.
Proof.
  intros Hid. unfold category_given.
  rewrite (truthy_object _ _ _ Hid). simpl. by rewrite Hid.
Qed.

(** C2, amended.  A [quiz_category] whose [id] is the integer 0 means any
    category: the candidates are all the questions when no previous
    questions are given, and all the questions whose id is not among the
    previous ones otherwise; no category filter is applied. *)
Theorem quiz_category_zero_is_any (B : Backend) (previous_questions : json)
    (members : list (string * json)) (s : db) :
  dict_get members "id" = Some (JNum 0) ->
  (truthy previous_questions = false ->
   quiz_candidates B previous_questions (JObj members) s = Return (db_questions s))
  /\ (forall ids : list Z,
        ids <> [] -> previous_questions = JArr (JNum <$> ids) ->
        quiz_candidates B previous_questions (JObj members) s
        = Return (filter (fun q => q_id q ∉ ids) (db_questions s))).
Proof.
  intros Hid. unfold quiz_candidates. rewrite (category_given_zero _ Hid). split.
  - by intros ->.
  - intros ids Hids ->. rewrite <- (notin_integers B).
    by destruct ids.
Qed.

(** The category "ALL" with two questions seen. *)
Lemma quiz_category_zero_is_any_witness :
  let category := [("type", JStr "click"); ("id", JNum 0)] in
  dict_get category "id" = Some (JNum 0)
  /\ (truthy (JArr (JNum <$> [2; 9])) = false ->
      quiz_candidates strict (JArr (JNum <$> [2; 9])) (JObj category) trivia
      = Return (db_questions trivia))
  /\ (forall ids : list Z,
        ids <> [] -> JArr (JNum <$> [2; 9]) = JArr (JNum <$> ids) ->
        quiz_candidates strict (JArr (JNum <$> [2; 9])) (JObj category) trivia
        = Return (filter (fun q => q_id q ∉ ids) (db_questions trivia))).
Proof.
  intros category. split; [reflexivity|].
  apply (quiz_category_zero_is_any strict (JArr (JNum <$> [2; 9])) category trivia).
  reflexivity.
Defined.

(** C2 as stated fails for the string ["0"]: it is not equal to the integer
    0, so the category filter is applied with the text ["0"], and no
    question of the store is a candidate; with the integer 0 all of them
    are. *)
Lemma quiz_category_string_zero :
  quiz_candidates strict JNull (JObj [("type", JStr "click"); ("id", JStr "0")]) trivia
  = Return []
  /\ quiz_candidates strict JNull (JObj [("type", JStr "click"); ("id", JNum 0)]) trivia
     = Return (db_questions trivia)
  /\ length (db_questions trivia) = 4%nat.
Proof. repeat split. Qed.

(** The string ["0"], like any other string, names a category. *)
Lemma quiz_category_string_filters (B : Backend) (members : list (string * json))
    (id : string) (s : db) :
  dict_get members "id" = Some (JStr id) ->
  quiz_candidates B JNull (JObj members) s
  = Return (filter (fun q => q_category q = id) (db_questions s)).
Proof.
  intros Hid. unfold quiz_candidates, category_given, in_category.
  rewrite (truthy_object _ _ _ Hid). simpl. by rewrite Hid.
Qed.

(** C3, amended.  When the candidate set is empty, the random selection
    fails before any element is indexed: the range [0..-1] handed to
    [random.randint] is empty and the call raises [ValueError], not
    [IndexError]; the exception is not caught and the request ends in the
    handler for 500.  No payload is returned, so no [question = null] with
    [success = true] either. *)
Theorem play_quiz_no_candidates (B : Backend) (entropy : Z) (req : request) (s : db)
    (members : list (string * json)) :
  payload req = Json (JObj members) ->
  members <> [] ->
  quiz_candidates B (default JNull (dict_get members "previous_questions"))
    (default JNull (dict_get members "quiz_category")) s = Return [] ->
  play_quiz B entropy req s = (Raise ValueError, s)
  /\ (play_quiz B entropy req s).1 <> Raise IndexError
  /\ dispatch (play_quiz B entropy req s).1 = internal_server_error
  /\ forall body : response, (play_quiz B entropy req s).1 <> Return body.
Proof.
  intros Hreq Hmembers Hnone.
  assert (play_quiz B entropy req s = (Raise ValueError, s)) as ->.
  { unfold play_quiz. read_body Hreq Hmembers. simpl. by rewrite Hnone. }
  done.
Qed.

(** Both questions of the category have been seen. *)
Lemma play_quiz_no_candidates_witness :
  let body := [("previous_questions", JArr [JNum 1; JNum 2; JNum 5]);
               ("quiz_category", JObj [("type", JStr "Science"); ("id", JStr "1")])] in
  payload (post (JObj body)) = Json (JObj body)
  /\ body <> []
  /\ quiz_candidates strict (default JNull (dict_get body "previous_questions"))
       (default JNull (dict_get body "quiz_category")) trivia = Return []
  /\ play_quiz strict 7 (post (JObj body)) trivia = (Raise ValueError, trivia)
  /\ (play_quiz strict 7 (post (JObj body)) trivia).1 <> Raise IndexError
  /\ dispatch (play_quiz strict 7 (post (JObj body)) trivia).1 = internal_server_error
  /\ forall r : response, (play_quiz strict 7 (post (JObj body)) trivia).1 <> Return r.
Proof.
  intros body.
  split; [reflexivity|]. split; [discriminate|]. split; [vm_compute; reflexivity|].
  apply (play_quiz_no_candidates strict 7 (post (JObj body)) trivia body);
    [reflexivity | discriminate | vm_compute; reflexivity].
Defined.

(** C3 as stated fails: with the store empty and no question seen, the
    candidate set is empty and the handler ends in the [ValueError] of
    [random.randint], so no index is used, in range or out of it. *)
Lemma play_quiz_empty_store_value_error :
  let body := [("previous_questions", JArr []); ("quiz_category", JNull)] in
  quiz_candidates strict (JArr []) JNull (mkDb [] []) = Return []
  /\ play_quiz strict 0 (post (JObj body)) (mkDb [] []) = (Raise ValueError, mkDb [] [])
  /\ (play_quiz strict 0 (post (JObj body)) (mkDb [] [])).1 <> Raise IndexError.
Proof. repeat split. discriminate. Qed.

(** ** The error mapper *)

(** Without a description of its own, an error is rendered with the
    fallback text of its code. *)
Lemma dispatch_default_text :
  dispatch (Abort E400 DefaultText) = Failed 400 (mkError false 400 (JStr "bad request"))
  /\ dispatch (Abort E404 DefaultText)
     = Failed 404 (mkError false 404 (JStr "resource not found"))
  /\ dispatch (Abort E405 DefaultText)
     = Failed 405 (mkError false 405 (JStr "method not allowed"))
  /\ dispatch (Abort E422 DefaultText)
     = Failed 422 (mkError false 422 (JStr "unprocessable")).
Proof. repeat split. Qed.

(** A description with a [message] is rendered with that message. *)
Lemma getErrorMessage_message (members : list (string * json)) (m : json)
    (default_text : string) :
  dict_get members "message" = Some m ->
  getErrorMessage (Supplied (JObj members)) default_text = Return m.
Proof.
  intros Hm. unfold getErrorMessage, subscript. rewrite Hm. by destruct m.
Qed.

(** A description that is an object without the key [message] raises
    [KeyError]; [getErrorMessage] catches [TypeError] alone, so for the
    codes 400, 404 and 422 the request ends in the handler for 500. *)
Lemma getErrorMessage_no_message (members : list (string * json)) (default_text : string) :
  dict_get members "message" = None ->
  getErrorMessage (Supplied (JObj members)) default_text = Raise KeyError.
Proof. intros Hm. unfold getErrorMessage, subscript. by rewrite Hm. Qed.

Lemma dispatch_no_message (code : http_error) (members : list (string * json)) :
  dict_get members "message" = None ->
  code <> E405 ->
  dispatch (Abort code (Supplied (JObj members))) = internal_server_error.
Proof.
  intros Hm Hcode. unfold dispatch.
  destruct code; [| |done|]; unfold errorhandler, bad_request, ressource_not_found,
    unprocessable; by rewrite (getErrorMessage_no_message _ _ Hm).
Qed.


(** ** GET /categories *)

Lemma categories_returned_snoc (l : list (Z * string)) (cat : Z * string) :
  categories_returned (l ++ [cat]) = <[cat.1 := cat.2]> (categories_returned l).
Proof. unfold categories_returned. by rewrite foldl_app. Qed.

Lemma categories_returned_dom (l : list (Z * string)) :
  dom (categories_returned l) = list_to_set l.*1.
Proof.
  induction l as [|cat l IH] using rev_ind; [done|].
  rewrite categories_returned_snoc, dom_insert_L, IH, fmap_snoc, list_to_set_snoc_L.
  apply (comm_L (∪)).
Qed.

Lemma categories_returned_lookup (l : list (Z * string)) (cat : Z * string) :
  NoDup l.*1 -> cat ∈ l -> categories_returned l !! cat.1 = Some cat.2.
Proof.
  induction l as [|last l IH] using rev_ind; [by intros _ ?%not_elem_of_nil|].
  rewrite fmap_snoc, categories_returned_snoc.
  intros [Hl [Hfresh _]]%NoDup_app [Hin| ->%list_elem_of_singleton]%elem_of_app.
  - rewrite lookup_insert_ne; [by apply IH|].
    intros Heq. apply (Hfresh cat.1); [by apply list_elem_of_fmap_2|].
    rewrite <- Heq. apply list_elem_of_singleton. done.
  - apply lookup_insert_eq.
Qed.

(** C9.  GET /categories aborts with 405, rendered "method not allowed",
    exactly when the categories table is empty; otherwise it returns a
    mapping whose keys are the ids of the stored categories and which, ids
    being unique, sends the id of every stored category to its type. *)
Theorem get_all_categories_spec (s : db) :
  ((get_all_categories s).1 = Abort E405 DefaultText <-> db_categories s = [])
  /\ dispatch (Abort E405 DefaultText)
     = Failed 405 (mkError false 405 (JStr "method not allowed"))
  /\ (db_categories s <> [] ->
      exists m : gmap Z string,
        get_all_categories s = (Return (CategoriesResponse m), s)
        /\ dom m = list_to_set (c_id <$> db_categories s)
        /\ (NoDup (c_id <$> db_categories s) ->
            forall c, c ∈ db_categories s -> m !! c_id c = Some (c_type c))).
Proof.
  unfold get_all_categories, bind_h, query, abort, lift. simpl.
  split; [|split; [done|]].
  - destruct (db_categories s); simpl; split; done.
  - intros Hne. destruct (db_categories s) as [|c0 cs] eqn:Hcs; [done|].
    eexists. split; [reflexivity|]. rewrite <- Hcs.
    assert (c_id <$> db_categories s = (Category_format <$> db_categories s).*1) as ->.
    { by rewrite <- list_fmap_compose. }
    split; [apply categories_returned_dom|].
    intros Hnodup c Hc.
    apply (categories_returned_lookup _ (Category_format c) Hnodup).
    by apply list_elem_of_fmap_2.
Qed.

(** ** Ordering by id *)

Lemma order_by_id_sorted (selection : list Question) :
  StronglySorted id_le (order_by_id selection).
Proof. apply StronglySorted_merge_sort; apply _. Qed.

Lemma order_by_id_perm (selection : list Question) :
  order_by_id selection ≡ₚ selection.
Proof. apply merge_sort_Permutation. Qed.

Lemma is_empty_true {A : Type} (l : list A) : is_empty l = true <-> l = [].
Proof. by destruct l. Qed.

Lemma is_empty_false {A : Type} (l : list A) : is_empty l = false <-> l <> [].
Proof. by destruct l. Qed.

(** ** GET /categories/<int:category_id>/questions *)


(** ** POST /questions: creating *)

(** C6, amended.  For a body that is a non-empty JSON object without a true
    [searchTerm], in which one of question, answer, category, difficulty is
    absent or false, the handler aborts with 400 and the message naming the
    first such field in that order, and the store is left as it was. *)
Theorem create_question_missing_field (B : Backend) (req : request) (s : db)
    (members : list (string * json)) (field : string) :
  payload req = Json (JObj members) ->
  members <> [] ->
  truthy (default JNull (dict_get members "searchTerm")) = false ->
  first_missing members = Some field ->
  create_or_search_questions B req s = (Abort E400 (mandatory field), s)
  /\ dispatch (Abort E400 (mandatory field))
     = Failed 400 (mkError false 400 (JStr (field +:+ " is a mandatory field"))).
Proof.
  intros Hreq Hmembers Hsearch Hfield. split; [|done].
  unfold create_or_search_questions. read_body Hreq Hmembers. simpl. rewrite Hsearch.
  unfold create_question, bind_h, lift, abort. simpl.
  unfold first_missing, required_fields in Hfield. simpl in Hfield.
  destruct (truthy (default JNull (dict_get members "question")));
    simpl in *; [|by injection Hfield as <-].
  destruct (truthy (default JNull (dict_get members "answer")));
    simpl in *; [|by injection Hfield as <-].
  destruct (truthy (default JNull (dict_get members "category")));
    simpl in *; [|by injection Hfield as <-].
  destruct (truthy (default JNull (dict_get members "difficulty")));
    simpl in *; [done|by injection Hfield as <-].
Qed.

(** The request of [test_error_create_question]. *)
Lemma create_question_missing_field_witness :
  let body := [("question", JStr "Is this a test question?");
               ("answer", JStr "Yes it is!"); ("difficulty", JNum 1)] in
  payload (post (JObj body)) = Json (JObj body)
  /\ body <> []
  /\ truthy (default JNull (dict_get body "searchTerm")) = false
  /\ first_missing body = Some "Category"
  /\ create_or_search_questions strict (post (JObj body)) trivia
     = (Abort E400 (mandatory "Category"), trivia)
  /\ dispatch (Abort E400 (mandatory "Category"))
     = Failed 400 (mkError false 400 (JStr "Category is a mandatory field")).
Proof.
  intros body.
  split; [reflexivity|]. split; [discriminate|]. split; [reflexivity|].
  split; [reflexivity|].
  apply (create_question_missing_field strict (post (JObj body)) trivia body "Category");
    [reflexivity | discriminate | reflexivity | reflexivity].
Defined.

(** C6 as stated fails for the empty object: [{}] is false in Python, so
    the check of the body aborts first, with no description, and the
    message is "bad request" although every field is missing. *)
Lemma create_question_empty_object :
  first_missing [] = Some "Question"
  /\ create_or_search_questions strict (post (JObj [])) trivia
     = (Abort E400 DefaultText, trivia)
  /\ dispatch (Abort E400 DefaultText) = Failed 400 (mkError false 400 (JStr "bad request")).
Proof. repeat split. Qed.

(** With the four fields present and true the row is inserted. *)
Example create_question_inserts :
  let body := [("question", JStr "Is this a test question?");
               ("answer", JStr "Yes it is!"); ("category", JStr "1");
               ("difficulty", JNum 1)] in
  exists page,
    create_or_search_questions strict (post (JObj body)) trivia
    = (Return (CreatedResponse 10 page 5),
       mkDb (db_questions trivia
             ++ [mkQuestion 10 "Is this a test question?" "Yes it is!" "1" 1])
            (db_categories trivia)).
Proof. eexists. vm_compute. reflexivity. Qed.

(** C10.  A body whose [searchTerm] is the empty string is not searched
    for: the handler runs the create branch on it, and when the body has
    no [question] it aborts with 400 and "Question is a mandatory field",
    not with 404. *)
Theorem empty_search_term_creates (B : Backend) (req : request) (s : db)
    (members : list (string * json)) :
  payload req = Json (JObj members) ->
  dict_get members "searchTerm" = Some (JStr "") ->
  create_or_search_questions B req s = create_question B req (JObj members) s
  /\ (dict_get members "question" = None ->
      create_or_search_questions B req s = (Abort E400 (mandatory "Question"), s)
      /\ dispatch (create_or_search_questions B req s).1
         = Failed 400 (mkError false 400 (JStr "Question is a mandatory field"))).
Proof.
  intros Hreq Hterm.
  assert (create_or_search_questions B req s = create_question B req (JObj members) s)
    as Hcreate.
  { unfold create_or_search_questions, bind_h, lift, get_json.
    rewrite Hreq, (truthy_object _ _ _ Hterm). simpl. by rewrite Hterm. }
  split; [done|]. intros Hquestion. rewrite Hcreate.
  unfold create_question, bind_h, lift, abort. simpl. by rewrite Hquestion.
Qed.

(** An empty search term and no question. *)
Lemma empty_search_term_creates_witness :
  let body := [("searchTerm", JStr ""); ("answer", JStr "Yes it is!")] in
  payload (post (JObj body)) = Json (JObj body)
  /\ dict_get body "searchTerm" = Some (JStr "")
  /\ create_or_search_questions strict (post (JObj body)) trivia
     = create_question strict (post (JObj body)) (JObj body) trivia
  /\ (dict_get body "question" = None ->
      create_or_search_questions strict (post (JObj body)) trivia
      = (Abort E400 (mandatory "Question"), trivia)
      /\ dispatch (create_or_search_questions strict (post (JObj body)) trivia).1
         = Failed 400 (mkError false 400 (JStr "Question is a mandatory field"))).
Proof.
  intros body. split; [reflexivity|]. split; [reflexivity|].
  apply (empty_search_term_creates strict (post (JObj body)) trivia body); reflexivity.
Defined.

(** ** POST /questions: searching *)

Lemma any_suffix_ext (f g : string -> bool) (text : string) :
  (forall t, f t = g t) -> any_suffix f text = any_suffix g text.
Proof. intros Hfg. induction text as [|c text IH]; simpl; by rewrite ?IH, Hfg. Qed.

Lemma like_star (pattern text : string) :
  like (String "%" pattern) text = any_suffix (like pattern) text.
Proof. induction text as [|c text IH]; simpl in *; by rewrite ?IH. Qed.

Lemma like_percent (text : string) : like "%" text = true.
Proof. rewrite like_star. induction text as [|c text IH]; [done|]. simpl. apply IH. Qed.

Lemma like_plain_prefix (term text : string) :
  plain term = true -> like (term +:+ "%") text = starts_with term text.
Proof.
  revert text. induction term as [|c term IH]; intros text Hplain.
  - apply like_percent.
  - simpl in Hplain.
    apply andb_prop in Hplain as [[[Hp Hu]%andb_prop Hb]%andb_prop Hterm].
    apply negb_true_iff in Hp, Hu, Hb.
    change (String c term +:+ "%") with (String c (term +:+ "%")).
    simpl. rewrite Hp, Hu, Hb.
    destruct text as [|d text]; [done|]. by rewrite IH.
Qed.

(** On a plain term the pattern of [contains] is a substring test. *)
Lemma like_plain_contains (term text : string) :
  plain term = true -> like ("%" +:+ term +:+ "%") text = occurs_in term text.
Proof.
  intros Hplain. change ("%" +:+ term +:+ "%") with (String "%" (term +:+ "%")).
  rewrite like_star. apply any_suffix_ext. intros t. by apply like_plain_prefix.
Qed.

Lemma starts_with_spec (term text : string) :
  starts_with term text = true <-> exists rest, text = term +:+ rest.
Proof.
  revert text. induction term as [|c term IH]; intros text; simpl.
  - split; [by exists text|done].
  - destruct text as [|d text].
    + split; [done|by intros [? ?]].
    + rewrite andb_true_iff, IH, Ascii.eqb_eq. split.
      * intros [-> [rest ->]]. by exists rest.
      * intros [rest [= -> ->]]. split; [done|by exists rest].
Qed.

(** [occurs_in] is the substring relation. *)
Lemma occurs_in_spec (term text : string) :
  occurs_in term text = true <-> exists before after, text = before +:+ term +:+ after.
Proof.
  unfold occurs_in. induction text as [|c text IH]; simpl.
  - rewrite orb_false_r, starts_with_spec. split.
    + intros [rest ->]. by exists "", rest.
    + intros [[|? before] [after Heq]]; [by exists after|done].
  - rewrite orb_true_iff, starts_with_spec, IH. split.
    + intros [[rest ->]|(before & after & ->)].
      * by exists "", rest.
      * by exists (String c before), after.
    + intros [[|d before] [after Heq]].
      * left. by exists after.
      * right. injection Heq as -> ->. by exists before, after.
Qed.

(** For a plain, non-empty search term the handler does what C5 says: it
    returns the questions whose text contains the term, unpaginated, with
    the number of all questions and the mapping of all categories; with no
    such question it aborts with 404. *)
Lemma search_plain_term (B : Backend) (req : request) (s : db)
    (members : list (string * json)) (term : string) :
  payload req = Json (JObj members) ->
  dict_get members "searchTerm" = Some (JStr term) ->
  term <> "" ->
  plain term = true ->
  let found := filter (fun q => occurs_in term (q_question q) = true) (db_questions s) in
  (found = [] ->
   create_or_search_questions B req s = (Abort E404 DefaultText, s)
   /\ dispatch (Abort E404 DefaultText)
      = Failed 404 (mkError false 404 (JStr "resource not found")))
  /\ (found <> [] ->
      create_or_search_questions B req s
      = (Return (SearchResponse (Question_format <$> found) (length (db_questions s))
                   (categories_returned (Category_format <$> db_categories s))), s)).
Proof.
  intros Hreq Hterm Hnonempty Hplain found.
  assert (filter (fun q => like ("%" +:+ term +:+ "%") (q_question q) = true) (db_questions s)
          = found) as Hfound.
  { apply list_filter_iff. intros q. by rewrite like_plain_contains. }
  assert (truthy (JStr term) = true) as Htruthy.
  { simpl. by rewrite bool_decide_eq_false_2. }
  unfold create_or_search_questions, bind_h, lift, get_json.
  rewrite Hreq, (truthy_object _ _ _ Hterm). unfold get. rewrite Hterm.
  cbn [negb default id]. rewrite Htruthy.
  unfold search_questions, Question_contains, bind_h, query, abort, lift.
  rewrite Hfound. split.
  - intros ->. done.
  - intros Hsome. rewrite (proj2 (is_empty_false _) Hsome).
    by rewrite (Permutation_length (order_by_id_perm _)).
Qed.

(** C5 at a failing input: in the term [Wh_t] the underscore stands for any
    character, so the question "What is the heaviest organ?" is returned
    although the term is not a substring of its text; and it is the only
    question returned, because no text contains the term itself. *)
Lemma search_wildcard_term :
  let q := mkQuestion 1 "What is the heaviest organ?" "The liver" "1" 4 in
  create_or_search_questions strict (post (JObj [("searchTerm", JStr "Wh_t")])) trivia
  = (Return (SearchResponse [Question_format q] 4
               (categories_returned (Category_format <$> db_categories trivia))), trivia)
  /\ occurs_in "Wh_t" (q_question q) = false
  /\ filter (fun q => occurs_in "Wh_t" (q_question q) = true) (db_questions trivia) = [].
Proof. repeat split. Qed.

(** A backslash in the term escapes the character after it: a text that
    contains the term is not found. *)
Example like_backslash :
  like ("%" +:+ "a\b" +:+ "%") "a\b" = false /\ occurs_in "a\b" "a\b" = true
  /\ like ("%" +:+ "a\b" +:+ "%") "ab" = true.
Proof. repeat split. Qed.

(** ** The quiz: the draw *)

Lemma randint_range (entropy a b : Z) :
  a <= b -> exists r, randint entropy a b = Return r /\ a <= r <= b.
Proof.
  intros Hab. unfold randint. destruct (Z.ltb_spec b a) as [?|_]; [lia|].
  eexists. split; [reflexivity|].
  pose proof (Z.mod_pos_bound entropy (b - a + 1)). lia.
Qed.

Lemma py_index_in_range {A : Type} (l : list A) (i : Z) :
  0 <= i < Z.of_nat (length l) ->
  exists x, py_index l i = Return x /\ l !! Z.to_nat i = Some x.
Proof.
  intros Hi. unfold py_index.
  destruct (Z.ltb_spec i 0) as [?|_]; [lia|].
  destruct (Z.leb_spec 0 i) as [_|?]; [|lia].
  destruct (Z.ltb_spec i (Z.of_nat (length l))) as [_|?]; [|lia].
  destruct (lookup_lt_is_Some_2 l (Z.to_nat i)) as [x Hx]; [lia|].
  exists x. by rewrite Hx.
Qed.

(** With a candidate at hand the handler returns one of the candidates,
    whatever the state of the generator. *)
Lemma play_quiz_returns_candidate (B : Backend) (entropy : Z) (req : request) (s : db)
    (members : list (string * json)) (candidates : list Question) :
  payload req = Json (JObj members) ->
  members <> [] ->
  quiz_candidates B (default JNull (dict_get members "previous_questions"))
    (default JNull (dict_get members "quiz_category")) s = Return candidates ->
  candidates <> [] ->
  exists q, q ∈ candidates
    /\ play_quiz B entropy req s = (Return (QuizResponse (Question_format q)), s).
Proof.
  intros Hreq Hmembers Hcandidates Hsome.
  unfold play_quiz. read_body Hreq Hmembers. simpl. rewrite Hcandidates.
  assert (0 < Z.of_nat (length (map Question_format candidates))) as Hlen.
  { rewrite length_map. destruct candidates; [done|simpl; lia]. }
  destruct (randint_range entropy 0 (Z.of_nat (length (map Question_format candidates)) - 1))
    as (r & -> & Hr); [lia|].
  destruct (py_index_in_range (map Question_format candidates) r) as (x & -> & Hx); [lia|].
  apply list_lookup_fmap_Some in Hx as (q & -> & Hq).
  exists q. split; [by eapply list_elem_of_lookup_2|done].
Qed.

(** Every candidate is the answer for some state of the generator. *)
Lemma play_quiz_reaches_candidate (B : Backend) (req : request) (s : db)
    (members : list (string * json)) (candidates : list Question) (q : Question) :
  payload req = Json (JObj members) ->
  members <> [] ->
  quiz_candidates B (default JNull (dict_get members "previous_questions"))
    (default JNull (dict_get members "quiz_category")) s = Return candidates ->
  q ∈ candidates ->
  exists entropy,
    play_quiz B entropy req s = (Return (QuizResponse (Question_format q)), s).
Proof.
  intros Hreq Hmembers Hcandidates [k Hk]%list_elem_of_lookup.
  pose proof (lookup_lt_Some _ _ _ Hk) as Hlt.
  exists (Z.of_nat k).
  unfold play_quiz. read_body Hreq Hmembers. simpl. rewrite Hcandidates.
  rewrite length_map. unfold randint.
  destruct (Z.ltb_spec (Z.of_nat (length candidates) - 1) 0) as [?|_]; [lia|].
  rewrite Z.mod_small, Z.add_0_l by lia. cbv beta iota.
  destruct (py_index_in_range (map Question_format candidates) (Z.of_nat k))
    as (x & -> & Hx); [rewrite length_map; lia|].
  rewrite Nat2Z.id, list_lookup_fmap, Hk in Hx. by injection Hx as <-.
Qed.

(** ** The cases of the test suite *)

Example test_400_get_questions_from_category :
  dispatch (get_questions_from_categories (mkRequest None NoJson) 467362 trivia).1
  = Failed 400 (mkError false 400 (JStr "bad request")).
Proof. reflexivity. Qed.

Example test_get_questions_from_category :
  exists page total,
    dispatch (get_questions_from_categories (mkRequest None NoJson) 2 trivia).1
    = Ok 200 (CategoryQuestionsResponse page total 2)
    /\ (0 < length page)%nat /\ (0 < total)%nat.
Proof. eexists _, _. split; [reflexivity|]. simpl. lia. Qed.

Example test_error_create_question :
  dispatch (create_or_search_questions strict
              (post (JObj [("question", JStr "Is this a test question?");
                           ("answer", JStr "Yes it is!"); ("difficulty", JNum 1)]))
              trivia).1
  = Failed 400 (mkError false 400 (JStr "Category is a mandatory field")).
Proof. reflexivity. Qed.

Example test_error_404_search_question :
  dispatch (create_or_search_questions strict
              (post (JObj [("searchTerm",
                            JStr "there is no question with such a string in it")]))
              trivia).1
  = Failed 404 (mkError false 404 (JStr "resource not found")).
Proof. vm_compute. reflexivity. Qed.

Example test_error_404_get_all_questions_paginated :
  dispatch (get_questions_for_page (mkRequest (Some 2314) NoJson) trivia).1
  = Failed 404 (mkError false 404 (JStr "resource not found")).
Proof. vm_compute. reflexivity. Qed.

Example test_error_400_play_quiz :
  dispatch (play_quiz strict 0 (mkRequest None NoJson) trivia).1
  = Failed 400 (mkError false 400
      (JStr "Please provide a JSON body with previous question Ids and optional category.")).
Proof. reflexivity. Qed.

Example test_play_quiz_with_category :
  exists question id,
    dispatch (play_quiz strict 3
                (post (JObj [("previous_questions", JArr [JNum 1; JNum 5]);
                             ("quiz_category",
                              JObj [("type", JStr "Science"); ("id", JStr "1")])]))
                trivia).1
    = Ok 200 (QuizResponse question)
    /\ subscript question "id" = Return (JNum id)
    /\ id <> 1 /\ id <> 5.
Proof. eexists _, _. split; [vm_compute; reflexivity|]. split; [reflexivity|]. lia. Qed.

Example test_play_quiz_without_category :
  exists question id,
    dispatch (play_quiz strict 3
                (post (JObj [("previous_questions", JArr [JNum 1; JNum 2; JNum 5])]))
                trivia).1
    = Ok 200 (QuizResponse question)
    /\ subscript question "id" = Return (JNum id)
    /\ id <> 1 /\ id <> 2 /\ id <> 5.
Proof. eexists _, _. split; [vm_compute; reflexivity|]. split; [reflexivity|]. lia. Qed.

(** * Further properties *)

(** ** Pages *)

Lemma py_slice_take_drop {A : Type} (l : list A) (start : Z) :
  exists j k : nat, (k <= 10)%nat /\ py_slice l start (start + 10) = take k (drop j l).
Proof.
  unfold py_slice. eexists _, _. split; [|reflexivity].
  destruct (Z.ltb_spec start 0), (Z.ltb_spec (start + 10) 0); lia.
Qed.

Lemma py_slice_window {A : Type} (l : list A) (start : Z) :
  (length (py_slice l start (start + 10)) <= 10)%nat
  /\ exists before after : list A,
       l = (before ++ py_slice l start (start + 10) ++ after)%list.
Proof.
  destruct (py_slice_take_drop l start) as (j & k & Hk & ->). split.
  - rewrite length_take. lia.
  - exists (take j l), (drop k (drop j l)). by rewrite !take_drop.
Qed.

(** Whatever the page number, also a negative one or none, a page holds at
    most ten records and is a run of consecutive records of the formatted
    selection. *)
Theorem paginate_questions_window (req : request) (selection : list Question) :
  (length (paginate_questions req selection) <= 10)%nat
  /\ exists before after : list json,
       map Question_format selection
       = (before ++ paginate_questions req selection ++ after)%list.
Proof. unfold paginate_questions, QUESTIONS_PER_PAGE. apply py_slice_window. Qed.

Lemma paginate_questions_page (req : request) (selection : list Question) :
  1 <= page_of req ->
  paginate_questions req selection
  = take 10 (drop (Z.to_nat ((page_of req - 1) * 10)) (map Question_format selection)).
Proof.
  intros Hp. unfold paginate_questions, QUESTIONS_PER_PAGE.
  rewrite py_slice_nonneg by lia. f_equal. lia.
Qed.

(** The pages 1, 2, ..., k, one after the other, are the first [10 * k]
    records: paging through the list shows every record once, in order. *)
Theorem paginate_questions_pages (k : nat) (sent : json_payload) (selection : list Question) :
  concat (map (fun p => paginate_questions (mkRequest (Some p) sent) selection)
              (seqZ 1 (Z.of_nat k)))
  = take (10 * k) (map Question_format selection).
Proof.
  induction k as [|k IH]; [done|].
  replace (Z.of_nat (S k)) with (Z.of_nat k + 1) by lia.
  rewrite seqZ_app by lia.
  change (seqZ (1 + Z.of_nat k) 1) with [0 + (1 + Z.of_nat k)].
  rewrite map_app, concat_app, IH. cbn [map concat].
  rewrite app_nil_r, paginate_questions_page by (unfold page_of; simpl; lia).
  unfold page_of. cbn [args_page default from_option id].
  replace (Z.to_nat ((0 + (1 + Z.of_nat k) - 1) * 10)) with (10 * k)%nat by lia.
  rewrite take_take_drop. f_equal. lia.
Qed.

(** A negative page number is not refused: it selects ten indices counted
    from the end of the list, those from [n + (p-1)*10] to [n + p*10]. *)
Theorem paginate_questions_negative (p : Z) (sent : json_payload) (selection : list Question) :
  p < 0 ->
  let L := map Question_format selection in
  let n := Z.of_nat (length L) in
  paginate_questions (mkRequest (Some p) sent) selection
  = spec_slice L (n + (p - 1) * 10) (n + p * 10).
Proof.
  intros Hp L n. unfold paginate_questions, page_of, QUESTIONS_PER_PAGE, py_slice.
  simpl. fold L. fold n. unfold spec_slice. rewrite slice_from_take_drop.
  destruct (Z.ltb_spec ((p - 1) * 10) 0) as [_|?]; [|lia].
  destruct (Z.ltb_spec ((p - 1) * 10 + 10) 0) as [_|?]; [|lia].
  f_equal; [lia|]. f_equal. lia.
Qed.

(** Fifteen questions, page -1: the first five. *)
Lemma paginate_questions_negative_witness :
  let selection := map (fun i => mkQuestion i "q" "a" "1" 1) (seqZ 1 15) in
  -1 < 0
  /\ paginate_questions (mkRequest (Some (-1)) NoJson) selection
     = Question_format <$> take 5 selection.
Proof.
  intros selection. split; [lia|].
  rewrite (paginate_questions_negative (-1) NoJson selection) by lia.
  vm_compute. reflexivity.
Defined.

(** ** GET /questions *)

Lemma order_by_id_length (selection : list Question) :
  length (order_by_id selection) = length selection.
Proof. apply Permutation_length, order_by_id_perm. Qed.

(** For a page number [p >= 0] (1 without the parameter) and [n]
    questions in the store, the listing aborts with 404, rendered
    "resource not found", when [p = 0] or [n <= (p-1)*10], an empty store
    included; otherwise it returns the page of the questions by ascending
    id, [min 10 (n - (p-1)*10)] of them, [n] as [total_questions] and the
    mapping of all categories.  The store is left as it was. *)
Theorem get_questions_for_page_spec (req : request) (s : db) :
  0 <= page_of req ->
  let p := page_of req in
  let n := Z.of_nat (length (db_questions s)) in
  let page := spec_slice (Question_format <$> order_by_id (db_questions s))
                ((p - 1) * 10) (p * 10) in
  (p = 0 \/ n <= (p - 1) * 10 ->
   get_questions_for_page req s = (Abort E404 DefaultText, s)
   /\ dispatch (get_questions_for_page req s).1
      = Failed 404 (mkError false 404 (JStr "resource not found")))
  /\ (1 <= p -> (p - 1) * 10 < n ->
      get_questions_for_page req s
      = (Return (QuestionsResponse page (length (db_questions s))
                   (categories_returned (Category_format <$> db_categories s))), s)
      /\ Z.of_nat (length page) = Z.min 10 (n - (p - 1) * 10)
      /\ StronglySorted id_le (order_by_id (db_questions s))).
Proof.
  intros Hp p n page.
  assert (paginate_questions req (order_by_id (db_questions s)) = page) as Hpage.
  { unfold page, spec_slice. rewrite slice_from_take_drop.
    destruct (decide (p = 0)) as [Hp0|Hp0].
    - unfold paginate_questions, QUESTIONS_PER_PAGE. fold p. rewrite Hp0.
      rewrite py_slice_before_start by lia.
      by replace (Z.to_nat _) with 0%nat by lia.
    - rewrite paginate_questions_page by (fold p; lia). fold p.
      f_equal; [lia|]. f_equal. lia. }
  assert (Z.of_nat (length page)
          = if decide (p = 0) then 0 else Z.max 0 (Z.min 10 (n - (p - 1) * 10)))
    as Hlen.
  { unfold page, spec_slice. rewrite slice_from_take_drop, length_take, length_drop,
      length_fmap, order_by_id_length.
    unfold n. destruct (decide (p = 0)); lia. }
  unfold get_questions_for_page, bind_h, query, abort, lift. rewrite Hpage.
  split.
  - intros Hout. rewrite bool_decide_eq_true_2; [done|].
    destruct (decide (p = 0)); lia.
  - intros Hp1 Hin. destruct (decide (p = 0)); [lia|].
    rewrite bool_decide_eq_false_2 by lia.
    rewrite order_by_id_length. split; [done|]. split; [lia|].
    apply order_by_id_sorted.
Qed.

(** The store of the examples, first page. *)
Lemma get_questions_for_page_spec_witness :
  let req := mkRequest None NoJson in
  0 <= page_of req
  /\ get_questions_for_page req trivia
     = (Return (QuestionsResponse
                  (Question_format <$> order_by_id (db_questions trivia)) 4
                  (categories_returned (Category_format <$> db_categories trivia))),
        trivia).
Proof.
  intros req. split; [unfold page_of; simpl; lia|].
  destruct (get_questions_for_page_spec req trivia) as [_ Hsome];
    [unfold page_of; simpl; lia|].
  destruct Hsome as [-> _]; [unfold page_of; simpl; lia..|].
  vm_compute. reflexivity.
Defined.

(** Category 0 lists what GET /questions lists: when the listing of all
    questions succeeds for a request, the listing of category 0 succeeds for
    it with the same questions and the same total. *)
Theorem category_zero_lists_all (req : request) (s : db) (page : list json) (total : nat)
    (cats : gmap Z string) :
  get_questions_for_page req s = (Return (QuestionsResponse page total cats), s) ->
  get_questions_from_categories req 0 s
  = (Return (CategoryQuestionsResponse page total 0), s).
Proof.
  unfold get_questions_for_page, get_questions_from_categories, category_selection,
    bind_h, query, abort, lift. simpl.
  destruct (bool_decide _) eqn:Hempty; [done|].
  intros [= <- <- _]. apply bool_decide_eq_false in Hempty.
  destruct (order_by_id (db_questions s)) as [|q rest] eqn:Hsel.
  - exfalso. apply Hempty. unfold paginate_questions, py_slice. simpl.
    by rewrite drop_nil, take_nil.
  - simpl. destruct (paginate_questions req (q :: rest)); [done|]. done.
Qed.

Lemma category_zero_lists_all_witness :
  let req := mkRequest None NoJson in
  let page := Question_format <$> order_by_id (db_questions trivia) in
  let cats := categories_returned (Category_format <$> db_categories trivia) in
  get_questions_for_page req trivia = (Return (QuestionsResponse page 4 cats), trivia)
  /\ get_questions_from_categories req 0 trivia
     = (Return (CategoryQuestionsResponse page 4 0), trivia).
Proof.
  intros req page cats. split; [vm_compute; reflexivity|].
  apply (category_zero_lists_all req trivia page 4 cats). vm_compute. reflexivity.
Defined.

(** ** GET /categories/<int:category_id>/questions *)

(** Every question that the listing of a category other than 0 returns is
    the formatted row of a stored question of that category, and a page
    holds at most ten of them. *)
Theorem category_page_in_category (req : request) (category_id : Z) (s s' : db)
    (page : list json) (total : nat) (current : Z) :
  category_id <> 0 ->
  get_questions_from_categories req category_id s
  = (Return (CategoryQuestionsResponse page total current), s') ->
  (length page <= 10)%nat
  /\ forall question, question ∈ page ->
       exists q, question = Question_format q /\ q ∈ db_questions s
                 /\ category_is category_id q.
Proof.
  intros Hid. unfold get_questions_from_categories, bind_h, query, abort, lift.
  destruct (is_empty (category_selection category_id s)); [done|].
  destruct (is_empty (paginate_questions _ _)); [done|].
  intros [= <- _ _ _].
  destruct (py_slice_window (map Question_format (category_selection category_id s))
              ((page_of req - 1) * QUESTIONS_PER_PAGE))
    as (Hlen & before & after & Hrun).
  fold (paginate_questions req (category_selection category_id s)) in Hlen, Hrun.
  split; [done|]. intros question Hin.
  assert (question ∈ map Question_format (category_selection category_id s)) as Hsel.
  { rewrite Hrun. apply elem_of_app. right. apply elem_of_app. by left. }
  apply list_elem_of_fmap in Hsel as (q & -> & Hq). exists q. split; [done|].
  unfold category_selection in Hq.
  replace (category_id =? 0) with false in Hq by (symmetry; by apply Z.eqb_neq).
  simpl in Hq. rewrite order_by_id_perm in Hq.
  by apply list_elem_of_filter in Hq as [? ?].
Qed.

Lemma category_page_in_category_witness :
  let req := mkRequest None NoJson in
  let page := [Question_format (mkQuestion 5 "Who painted La Giaconda?" "Da Vinci" "2" 3)] in
  2 <> 0
  /\ get_questions_from_categories req 2 trivia
     = (Return (CategoryQuestionsResponse page 1 2), trivia)
  /\ (length page <= 10)%nat
  /\ forall question, question ∈ page ->
       exists q, question = Question_format q /\ q ∈ db_questions trivia
                 /\ category_is 2 q.
Proof.
  intros req page. split; [lia|]. split; [vm_compute; reflexivity|].
  apply (category_page_in_category req 2 trivia trivia page 1 2); [lia|].
  vm_compute. reflexivity.
Defined.

(** ** DELETE /questions/<int:question_id> *)

Lemma filter_absent (rows : list Question) (id : Z) :
  (forall row, row ∈ rows -> q_id row <> id) ->
  filter (fun row => q_id row = id) rows = []
  /\ filter (fun row => q_id row <> id) rows = rows.
Proof.
  induction rows as [|row rows IH]; [done|]. intros Hall.
  destruct IH as [IH1 IH2].
  { intros r Hr. apply Hall. by apply list_elem_of_further. }
  assert (q_id row <> id) as Hrow by (apply Hall; apply list_elem_of_here).
  by rewrite filter_cons_False, filter_cons_True, IH1, IH2.
Qed.

Lemma unique_row (rows : list Question) (q : Question) :
  NoDup (q_id <$> rows) -> q ∈ rows ->
  filter (fun row => q_id row = q_id q) rows = [q]
  /\ S (length (filter (fun row => q_id row <> q_id q) rows)) = length rows.
Proof.
  induction rows as [|row rows IH]; [by intros _ ?%not_elem_of_nil|].
  rewrite fmap_cons, NoDup_cons. intros [Hfresh Hnodup] Hin.
  apply elem_of_cons in Hin as [<-|Hin].
  - destruct (filter_absent rows (q_id q)) as [H1 H2].
    { intros r Hr Heq. apply Hfresh. rewrite <- Heq. by apply list_elem_of_fmap_2. }
    rewrite filter_cons_True by done.
    rewrite filter_cons_False by (intros Hne; by apply Hne).
    by rewrite H1, H2.
  - destruct (IH Hnodup Hin) as [IH1 IH2].
    assert (q_id row <> q_id q) as Hrow.
    { intros Heq. apply Hfresh. rewrite Heq. by apply list_elem_of_fmap_2. }
    rewrite filter_cons_False, filter_cons_True, IH1 by done. simpl. by rewrite IH2.
Qed.

Lemma delete_absent (raises : Question -> db -> bool) (question_id : Z) (s : db) :
  (forall q, q ∈ db_questions s -> q_id q <> question_id) ->
  delete_question_by_id raises question_id s = (Abort E404 DefaultText, s).
Proof.
  intros Hnone. unfold delete_question_by_id, bind_h, abort, lift.
  by destruct (filter_absent _ _ Hnone) as [-> _].
Qed.

(** Deleting an id that no stored question has aborts with 404, rendered
    "resource not found", and leaves the store as it was. *)
Theorem delete_unknown_id (raises : Question -> db -> bool) (question_id : Z) (s : db) :
  (forall q, q ∈ db_questions s -> q_id q <> question_id) ->
  delete_question_by_id raises question_id s = (Abort E404 DefaultText, s)
  /\ errorhandler E404 DefaultText
     = Return (Failed 404 (mkError false 404 (JStr "resource not found"))).
Proof.
  intros Hnone. split; [by apply delete_absent|done].
Qed.

(** The id of the test [test_404_delete_question]. *)
Lemma delete_unknown_id_witness :
  (forall q, q ∈ db_questions trivia -> q_id q <> 1234567879)
  /\ delete_question_by_id (fun _ _ => false) 1234567879 trivia
     = (Abort E404 DefaultText, trivia)
  /\ errorhandler E404 DefaultText
     = Return (Failed 404 (mkError false 404 (JStr "resource not found"))).
Proof.
  assert (forall q, q ∈ db_questions trivia -> q_id q <> 1234567879) as Hnone.
  { intros q Hq. unfold trivia in Hq. simpl in Hq.
    repeat (apply elem_of_cons in Hq as [->|Hq]; [simpl; lia|]).
    by apply not_elem_of_nil in Hq. }
  split; [exact Hnone|].
  apply (delete_unknown_id (fun _ _ => false) 1234567879 trivia Hnone).
Defined.

(** Ids being unique, deleting a stored question that the database lets
    go returns its id; afterwards the store holds exactly the other
    questions, in their order, the categories are untouched, and deleting
    the same id again aborts with 404. *)
Theorem delete_removes_question (raises : Question -> db -> bool) (q : Question) (s : db) :
  NoDup (q_id <$> db_questions s) ->
  q ∈ db_questions s ->
  raises q s = false ->
  exists s',
    delete_question_by_id raises (q_id q) s = (Return (q_id q), s')
    /\ (forall row, row ∈ db_questions s' <-> row ∈ db_questions s /\ row <> q)
    /\ db_questions s' `sublist_of` db_questions s
    /\ S (length (db_questions s')) = length (db_questions s)
    /\ db_categories s' = db_categories s
    /\ forall raises', delete_question_by_id raises' (q_id q) s' = (Abort E404 DefaultText, s').
Proof.
  intros Hnodup Hq Hraises. destruct (unique_row _ _ Hnodup Hq) as [Hone Hlen].
  eexists. split; [|split; [|split; [|split; [|split]]]].
  - unfold delete_question_by_id, bind_h, try_except, Question_delete, abort, lift.
    rewrite Hone. simpl. rewrite Hraises. reflexivity.
  - intros row. simpl. rewrite list_elem_of_filter. split.
    + intros [Hid Hrow]. split; [done|]. by intros ->.
    + intros [Hrow Hne]. split; [|done]. intros Hid. apply Hne.
      assert (row ∈ filter (fun r => q_id r = q_id q) (db_questions s)) as Hin
        by (by apply list_elem_of_filter).
      rewrite Hone in Hin. by apply list_elem_of_singleton in Hin.
  - apply sublist_filter.
  - done.
  - done.
  - intros raises'. apply delete_absent. simpl.
    by intros row [Hid _]%list_elem_of_filter.
Qed.

(** Question 5 of the store of the examples. *)
Lemma delete_removes_question_witness :
  let q := mkQuestion 5 "Who painted La Giaconda?" "Da Vinci" "2" 3 in
  NoDup (q_id <$> db_questions trivia)
  /\ q ∈ db_questions trivia
  /\ (fun (_ : Question) (_ : db) => false) q trivia = false
  /\ exists s',
       delete_question_by_id (fun _ _ => false) (q_id q) trivia = (Return (q_id q), s')
       /\ (forall row, row ∈ db_questions s' <-> row ∈ db_questions trivia /\ row <> q)
       /\ db_questions s' `sublist_of` db_questions trivia
       /\ S (length (db_questions s')) = length (db_questions trivia)
       /\ db_categories s' = db_categories trivia
       /\ forall raises',
            delete_question_by_id raises' (q_id q) s' = (Abort E404 DefaultText, s').
Proof.
  intros q.
  assert (NoDup (q_id <$> db_questions trivia)) as Hnodup.
  { apply (bool_decide_unpack _). vm_compute. exact I. }
  assert (q ∈ db_questions trivia) as Hq.
  { unfold trivia. simpl. do 2 apply list_elem_of_further. apply list_elem_of_here. }
  split; [exact Hnodup|]. split; [exact Hq|]. split; [reflexivity|].
  apply (delete_removes_question (fun _ _ => false) q trivia Hnodup Hq). reflexivity.
Defined.

(** A deletion that the database refuses aborts with 422, rendered
    "unprocessable", and the store is left as it was. *)
Theorem delete_refused (raises : Question -> db -> bool) (q : Question) (s : db) :
  NoDup (q_id <$> db_questions s) ->
  q ∈ db_questions s ->
  raises q s = true ->
  delete_question_by_id raises (q_id q) s = (Abort E422 DefaultText, s)
  /\ errorhandler E422 DefaultText
     = Return (Failed 422 (mkError false 422 (JStr "unprocessable"))).
Proof.
  intros Hnodup Hq Hraises. destruct (unique_row _ _ Hnodup Hq) as [Hone _].
  split; [|done].
  unfold delete_question_by_id, bind_h, try_except, Question_delete, abort, lift.
  rewrite Hone. simpl. by rewrite Hraises.
Qed.

Lemma delete_refused_witness :
  let q := mkQuestion 5 "Who painted La Giaconda?" "Da Vinci" "2" 3 in
  NoDup (q_id <$> db_questions trivia)
  /\ q ∈ db_questions trivia
  /\ (fun (_ : Question) (_ : db) => true) q trivia = true
  /\ delete_question_by_id (fun _ _ => true) (q_id q) trivia = (Abort E422 DefaultText, trivia)
  /\ errorhandler E422 DefaultText
     = Return (Failed 422 (mkError false 422 (JStr "unprocessable"))).
Proof.
  intros q.
  assert (NoDup (q_id <$> db_questions trivia)) as Hnodup.
  { apply (bool_decide_unpack _). vm_compute. exact I. }
  assert (q ∈ db_questions trivia) as Hq.
  { unfold trivia. simpl. do 2 apply list_elem_of_further. apply list_elem_of_here. }
  split; [exact Hnodup|]. split; [exact Hq|]. split; [reflexivity|].
  apply (delete_refused (fun _ _ => true) q trivia Hnodup Hq). reflexivity.
Defined.

(** ** POST /questions: the insertion *)

(** With the four fields present and true the handler hands them to the
    insertion.  When it succeeds the response carries the new id, the
    requested page of all questions after the insertion (an empty page is
    no error here) and their number, and the store is the one with the new
    row; when it raises the handler aborts with 422 and the store is left
    as it was. *)
Theorem create_question_inserted (B : Backend) (req : request) (s : db)
    (members : list (string * json)) :
  payload req = Json (JObj members) ->
  members <> [] ->
  truthy (default JNull (dict_get members "searchTerm")) = false ->
  first_missing members = None ->
  let field key := default JNull (dict_get members key) in
  match Question_insert B (field "question") (field "answer") (field "category")
          (field "difficulty") s with
  | Some (id, s') =>
      create_or_search_questions B req s
      = (Return (CreatedResponse id
                   (paginate_questions req (order_by_id (db_questions s')))
                   (length (db_questions s'))), s')
  | None =>
      create_or_search_questions B req s = (Abort E422 DefaultText, s)
      /\ dispatch (create_or_search_questions B req s).1
         = Failed 422 (mkError false 422 (JStr "unprocessable"))
  end.
Proof.
  intros Hreq Hmembers Hsearch Hfields field.
  unfold create_or_search_questions. read_body Hreq Hmembers. simpl. rewrite Hsearch.
  unfold create_question, bind_h, lift, abort, try_except, query. simpl.
  unfold first_missing, required_fields in Hfields. simpl in Hfields.
  fold (field "question") (field "answer") (field "category") (field "difficulty")
    in Hfields |- *.
  destruct (truthy (field "question")); [|done]. simpl in *.
  destruct (truthy (field "answer")); [|done]. simpl in *.
  destruct (truthy (field "category")); [|done]. simpl in *.
  destruct (truthy (field "difficulty")); [|done]. simpl in *.
  destruct (Question_insert B _ _ _ _ s) as [[id s']|]; [|done].
  by rewrite order_by_id_length.
Qed.

(** The request of [test_create_question], asked for page 7. *)
Lemma create_question_inserted_witness :
  let members := [("question", JStr "Is this a test question?");
                  ("answer", JStr "Yes it is!"); ("category", JStr "1");
                  ("difficulty", JNum 1)] in
  let req := mkRequest (Some 7) (Json (JObj members)) in
  let row := mkQuestion 10 "Is this a test question?" "Yes it is!" "1" 1 in
  payload req = Json (JObj members)
  /\ members <> []
  /\ truthy (default JNull (dict_get members "searchTerm")) = false
  /\ first_missing members = None
  /\ create_or_search_questions strict req trivia
     = (Return (CreatedResponse 10 [] 5),
        mkDb (db_questions trivia ++ [row]) (db_categories trivia)).
Proof.
  intros members req row.
  split; [reflexivity|]. split; [discriminate|]. split; [reflexivity|].
  split; [reflexivity|].
  pose proof (create_question_inserted strict req trivia members) as Hcreate.
  simpl in Hcreate. rewrite Hcreate; [|reflexivity|discriminate|reflexivity|reflexivity].
  vm_compute. reflexivity.
Defined.

(** POST /questions changes the store only through a successful
    insertion: whatever the request and the backend, the store is left as
    it was unless the response is the one of a created question, and then
    the store is the one the insertion gave. *)
Theorem create_or_search_frame (B : Backend) (req : request) (s : db) :
  (create_or_search_questions B req s).2 = s
  \/ exists question answer category difficulty id page total,
       Question_insert B question answer category difficulty s
       = Some (id, (create_or_search_questions B req s).2)
       /\ (create_or_search_questions B req s).1 = Return (CreatedResponse id page total).
Proof.
  unfold create_or_search_questions, search_questions, create_question, Question_contains,
    bind_h, lift, abort, query, try_except, get_json.
  destruct (payload req) as [| |body]; [by left..|].
  destruct (truthy body); [|by left]. simpl.
  destruct (get body "searchTerm") as [search_term| |]; [|by left..].
  destruct (truthy search_term).
  { destruct search_term; try destruct (foreign_text B _); simpl;
      try destruct (is_empty _); by left. }
  destruct (get body "question") as [question| |]; [|by left..].
  destruct (get body "answer") as [answer| |]; [|by left..].
  destruct (get body "category") as [category| |]; [|by left..].
  destruct (get body "difficulty") as [difficulty| |]; [|by left..].
  destruct (truthy question); [|by left]. simpl.
  destruct (truthy answer); [|by left]. simpl.
  destruct (truthy category); [|by left]. simpl.
  destruct (truthy difficulty); [|by left]. simpl.
  destruct (Question_insert B question answer category difficulty s) as [[id s']|] eqn:Hins;
    [|by left].
  right. by eexists question, answer, category, difficulty, id, _, _.
Qed.

(** The listings, the quiz and a deletion that fails never change the
    store. *)
Theorem read_only_handlers (B : Backend) (raises : Question -> db -> bool) (entropy : Z)
    (req : request) (id : Z) (s : db) :
  (get_all_categories s).2 = s
  /\ (get_questions_for_page req s).2 = s
  /\ (get_questions_from_categories req id s).2 = s
  /\ (play_quiz B entropy req s).2 = s
  /\ ((forall deleted, (delete_question_by_id raises id s).1 <> Return deleted) ->
      (delete_question_by_id raises id s).2 = s).
Proof.
  split; [|split; [|split; [|split]]].
  - unfold get_all_categories, bind_h, query, abort, lift. by destruct (is_empty _).
  - unfold get_questions_for_page, bind_h, query, abort, lift. by destruct (bool_decide _).
  - unfold get_questions_from_categories, bind_h, query, abort, lift.
    destruct (is_empty _); [done|]. by destruct (is_empty _).
  - unfold play_quiz, bind_h, abort, lift, get_json.
    destruct (payload req) as [| |body]; [done..|].
    destruct (truthy body); [|done]. simpl.
    destruct (get body "previous_questions"); [|done..].
    destruct (get body "quiz_category"); [|done..].
    destruct (quiz_candidates _ _ _ _); [|done..].
    destruct (randint _ _ _); [|done..].
    by destruct (py_index _ _).
  - unfold delete_question_by_id, bind_h, try_except, Question_delete, abort, lift.
    destruct (one_or_none _) as [[q|]| |]; [|done..].
    destruct (raises q s); [done|]. simpl. intros Hne. exfalso. by apply (Hne id).
Qed.

(** ** The bodies of the POST requests *)

(** A request without JSON, or whose JSON is false in Python ([null],
    [{}], [[]], the empty string, 0, [false]), is answered 400 by both POST
    handlers: "bad request" by POST /questions and the request for a body
    by POST /quizzes. *)
Theorem falsy_body_is_bad_request (B : Backend) (entropy : Z) (req : request) (s : db) :
  payload req = NoJson \/ (exists body, payload req = Json body /\ truthy body = false) ->
  create_or_search_questions B req s = (Abort E400 DefaultText, s)
  /\ dispatch (Abort E400 DefaultText) = Failed 400 (mkError false 400 (JStr "bad request"))
  /\ play_quiz B entropy req s = (Abort E400 provide_a_body, s)
  /\ dispatch (Abort E400 provide_a_body)
     = Failed 400 (mkError false 400
         (JStr "Please provide a JSON body with previous question Ids and optional category.")).
Proof.
  intros Hbody.
  unfold create_or_search_questions, play_quiz, bind_h, lift, abort, get_json.
  destruct Hbody as [->|(body & -> & ->)]; done.
Qed.

Lemma falsy_body_is_bad_request_witness :
  let req := post (JArr []) in
  (payload req = NoJson \/ (exists body, payload req = Json body /\ truthy body = false))
  /\ create_or_search_questions strict req trivia = (Abort E400 DefaultText, trivia)
  /\ dispatch (Abort E400 DefaultText) = Failed 400 (mkError false 400 (JStr "bad request"))
  /\ play_quiz strict 0 req trivia = (Abort E400 provide_a_body, trivia)
  /\ dispatch (Abort E400 provide_a_body)
     = Failed 400 (mkError false 400
         (JStr "Please provide a JSON body with previous question Ids and optional category.")).
Proof.
  intros req.
  assert (payload req = NoJson \/ (exists body, payload req = Json body /\ truthy body = false))
    as Hbody by (right; by exists (JArr [])).
  split; [exact Hbody|].
  apply (falsy_body_is_bad_request strict 0 req trivia Hbody).
Defined.

(** A JSON body that is true in Python but is no object (a non-empty list
    or string, a number other than 0, [true]) has no [get]: both POST
    handlers raise [AttributeError], the request is answered 500, and the
    store is left as it was. *)
Theorem non_object_body_is_server_error (B : Backend) (entropy : Z) (req : request)
    (s : db) (body : json) :
  payload req = Json body ->
  truthy body = true ->
  (forall members, body <> JObj members) ->
  create_or_search_questions B req s = (Raise AttributeError, s)
  /\ play_quiz B entropy req s = (Raise AttributeError, s)
  /\ dispatch (Raise AttributeError) = internal_server_error.
Proof.
  intros Hreq Htruthy Hshape.
  unfold create_or_search_questions, play_quiz, bind_h, lift, abort, get_json.
  rewrite Hreq, Htruthy.
  destruct body as [| | | | |members]; try done. by destruct (Hshape members).
Qed.

Lemma non_object_body_is_server_error_witness :
  let req := post (JArr [JNum 1]) in
  payload req = Json (JArr [JNum 1])
  /\ truthy (JArr [JNum 1]) = true
  /\ (forall members, JArr [JNum 1] <> JObj members)
  /\ create_or_search_questions strict req trivia = (Raise AttributeError, trivia)
  /\ play_quiz strict 0 req trivia = (Raise AttributeError, trivia)
  /\ dispatch (Raise AttributeError) = internal_server_error.
Proof.
  intros req. split; [reflexivity|]. split; [reflexivity|].
  split; [discriminate|].
  apply (non_object_body_is_server_error strict 0 req trivia (JArr [JNum 1]));
    [reflexivity | reflexivity | discriminate].
Defined.

(** ** The quiz: the category *)

(** A [quiz_category] that is true in Python but gives no [id] stops the
    quiz with an exception, answered 500: [KeyError] for an object without
    the key, [TypeError] for a value that is no object. *)
Theorem quiz_category_without_id (B : Backend) (entropy : Z) (req : request) (s : db)
    (members : list (string * json)) (category : json) :
  payload req = Json (JObj members) ->
  dict_get members "quiz_category" = Some category ->
  truthy category = true ->
  ((exists fields, category = JObj fields /\ dict_get fields "id" = None) ->
   play_quiz B entropy req s = (Raise KeyError, s))
  /\ ((forall fields, category <> JObj fields) ->
      play_quiz B entropy req s = (Raise TypeError, s))
  /\ dispatch (Raise KeyError) = internal_server_error
  /\ dispatch (Raise TypeError) = internal_server_error.
Proof.
  intros Hreq Hcategory Htruthy.
  assert (forall e, subscript category "id" = Raise e ->
                    play_quiz B entropy req s = (Raise e, s)) as Hraise.
  { intros e He. unfold play_quiz, bind_h, lift, get_json.
    rewrite Hreq, (truthy_object _ _ _ Hcategory). simpl. rewrite Hcategory. simpl.
    unfold quiz_candidates, category_given. rewrite Htruthy, He. simpl.
    by destruct (negb _). }
  split; [|split; [|done]].
  - intros (fields & -> & Hid). apply Hraise. simpl. by rewrite Hid.
  - intros Hshape. apply Hraise.
    destruct category as [| | | | |fields]; try done. by destruct (Hshape fields).
Qed.

Lemma quiz_category_without_id_witness :
  let category := JObj [("type", JStr "Science")] in
  let members := [("previous_questions", JArr []); ("quiz_category", category)] in
  payload (post (JObj members)) = Json (JObj members)
  /\ dict_get members "quiz_category" = Some category
  /\ truthy category = true
  /\ play_quiz strict 0 (post (JObj members)) trivia = (Raise KeyError, trivia).
Proof.
  intros category members.
  split; [reflexivity|]. split; [reflexivity|]. split; [reflexivity|].
  destruct (quiz_category_without_id strict 0 (post (JObj members)) trivia members category)
    as [Hkey _]; [reflexivity..|].
  apply Hkey. by exists [("type", JStr "Science")].
Defined.

Lemma category_given_false (category : json) :
  truthy category = false
  \/ (exists fields, category = JObj fields /\ dict_get fields "id" = Some (JBool false)) ->
  category_given category = Return false.
Proof.
  unfold category_given. intros [->|(fields & -> & Hid)]; [done|].
  rewrite (truthy_object _ _ _ Hid). simpl. by rewrite Hid.
Qed.

(** Without a [quiz_category], with one that is false in Python ([null],
    [{}]) or with one whose [id] is [false], the quiz draws from all the
    questions, less the previous ones when they are given. *)
Theorem quiz_without_category (B : Backend) (previous_questions category : json) (s : db) :
  truthy category = false
  \/ (exists fields, category = JObj fields /\ dict_get fields "id" = Some (JBool false)) ->
  (truthy previous_questions = false ->
   quiz_candidates B previous_questions category s = Return (db_questions s))
  /\ (forall ids : list Z,
        ids <> [] -> previous_questions = JArr (JNum <$> ids) ->
        quiz_candidates B previous_questions category s
        = Return (filter (fun q => q_id q ∉ ids) (db_questions s))).
Proof.
  intros Hcategory. unfold quiz_candidates.
  rewrite (category_given_false _ Hcategory). split.
  - by intros ->.
  - intros ids Hids ->. rewrite <- (notin_integers B). by destruct ids.
Qed.

Lemma quiz_without_category_witness :
  (truthy JNull = false
   \/ (exists fields, JNull = JObj fields /\ dict_get fields "id" = Some (JBool false)))
  /\ (truthy JNull = false ->
      quiz_candidates strict JNull JNull trivia = Return (db_questions trivia))
  /\ (forall ids : list Z,
        ids <> [] -> JNull = JArr (JNum <$> ids) ->
        quiz_candidates strict JNull JNull trivia
        = Return (filter (fun q => q_id q ∉ ids) (db_questions trivia))).
Proof.
  assert (truthy JNull = false
          \/ (exists fields, JNull = JObj fields /\ dict_get fields "id" = Some (JBool false)))
    as Hcategory by (by left).
  split; [exact Hcategory|].
  apply (quiz_without_category strict JNull JNull trivia Hcategory).
Defined.

(** A [quiz_category] whose [id] is not equal to 0, a string or another
    number, restricts the quiz to the questions whose category is [str(id)];
    with previous questions given, to those of them not yet seen. *)
Theorem quiz_specific_category (B : Backend) (previous_questions id : json)
    (fields : list (string * json)) (s : db) :
  dict_get fields "id" = Some id ->
  eq_int id 0 = false ->
  (truthy previous_questions = false ->
   quiz_candidates B previous_questions (JObj fields) s
   = Return (filter (fun q => q_category q = py_str B id) (db_questions s)))
  /\ (forall ids : list Z,
        ids <> [] -> previous_questions = JArr (JNum <$> ids) ->
        quiz_candidates B previous_questions (JObj fields) s
        = Return (filter (fun q => (q_id q ∉ ids) /\ q_category q = py_str B id)
                    (db_questions s))).
Proof.
  intros Hid Hne.
  assert (category_given (JObj fields) = Return true) as Hgiven.
  { unfold category_given. rewrite (truthy_object _ _ _ Hid). simpl.
    rewrite Hid. simpl. by rewrite Hne. }
  unfold quiz_candidates. rewrite Hgiven. unfold in_category. simpl. rewrite Hid. simpl.
  split.
  - by intros ->.
  - intros ids Hids ->. replace (truthy (JArr (JNum <$> ids))) with true by (by destruct ids).
    simpl. by rewrite notin_integers, list_filter_filter.
Qed.

(** The request of [test_play_quiz_with_category], one question seen. *)
Lemma quiz_specific_category_witness :
  let fields := [("type", JStr "Science"); ("id", JStr "1")] in
  dict_get fields "id" = Some (JStr "1")
  /\ eq_int (JStr "1") 0 = false
  /\ quiz_candidates strict (JArr (JNum <$> [1; 5])) (JObj fields) trivia
     = Return [mkQuestion 2 "Which planet is closest to the sun?" "Mercury" "1" 2].
Proof.
  intros fields. split; [reflexivity|]. split; [reflexivity|].
  destruct (quiz_specific_category strict (JArr (JNum <$> [1; 5])) (JStr "1") fields trivia)
    as [_ Hseen]; [reflexivity..|].
  rewrite (Hseen [1; 5]); [|discriminate|reflexivity].
  vm_compute. reflexivity.
Defined.

(** The draw, at the store of the examples. *)
Lemma play_quiz_returns_candidate_witness :
  let members := [("previous_questions", JArr [JNum 1; JNum 2])] in
  let candidates := [mkQuestion 5 "Who painted La Giaconda?" "Da Vinci" "2" 3;
                     mkQuestion 9 "Which dung beetle was worshipped?" "Scarab" "4" 4] in
  payload (post (JObj members)) = Json (JObj members)
  /\ members <> []
  /\ quiz_candidates strict (default JNull (dict_get members "previous_questions"))
       (default JNull (dict_get members "quiz_category")) trivia = Return candidates
  /\ candidates <> []
  /\ exists q, q ∈ candidates
       /\ play_quiz strict 12 (post (JObj members)) trivia
          = (Return (QuizResponse (Question_format q)), trivia).
Proof.
  intros members candidates.
  split; [reflexivity|]. split; [discriminate|]. split; [vm_compute; reflexivity|].
  split; [discriminate|].
  apply (play_quiz_returns_candidate strict 12 (post (JObj members)) trivia members candidates);
    [reflexivity | discriminate | vm_compute; reflexivity | discriminate].
Defined.

Lemma play_quiz_reaches_candidate_witness :
  let members := [("previous_questions", JArr [JNum 1; JNum 2])] in
  let candidates := [mkQuestion 5 "Who painted La Giaconda?" "Da Vinci" "2" 3;
                     mkQuestion 9 "Which dung beetle was worshipped?" "Scarab" "4" 4] in
  let q := mkQuestion 9 "Which dung beetle was worshipped?" "Scarab" "4" 4 in
  payload (post (JObj members)) = Json (JObj members)
  /\ members <> []
  /\ quiz_candidates strict (default JNull (dict_get members "previous_questions"))
       (default JNull (dict_get members "quiz_category")) trivia = Return candidates
  /\ q ∈ candidates
  /\ exists entropy,
       play_quiz strict entropy (post (JObj members)) trivia
       = (Return (QuizResponse (Question_format q)), trivia).
Proof.
  intros members candidates q.
  assert (q ∈ candidates) as Hq by (apply list_elem_of_further, list_elem_of_here).
  split; [reflexivity|]. split; [discriminate|]. split; [vm_compute; reflexivity|].
  split; [exact Hq|].
  apply (play_quiz_reaches_candidate strict (post (JObj members)) trivia members candidates q);
    [reflexivity | discriminate | vm_compute; reflexivity | exact Hq].
Defined.

(** ** POST /questions: what a search finds *)

(** The request of [test_search_question] on the store of the examples. *)
Lemma search_plain_term_witness :
  let members := [("searchTerm", JStr "planet")] in
  let req := post (JObj members) in
  let found := filter (fun q => occurs_in "planet" (q_question q) = true)
                 (db_questions trivia) in
  payload req = Json (JObj members)
  /\ dict_get members "searchTerm" = Some (JStr "planet")
  /\ "planet" <> ""
  /\ plain "planet" = true
  /\ found = [mkQuestion 2 "Which planet is closest to the sun?" "Mercury" "1" 2]
  /\ create_or_search_questions strict req trivia
     = (Return (SearchResponse (Question_format <$> found) 4
                  (categories_returned (Category_format <$> db_categories trivia))), trivia).
Proof.
  intros members req found.
  split; [reflexivity|]. split; [reflexivity|]. split; [discriminate|].
  split; [reflexivity|]. split; [vm_compute; reflexivity|].
  destruct (search_plain_term strict req trivia members "planet") as [_ Hsome];
    [reflexivity | reflexivity | discriminate | reflexivity |].
  apply Hsome. vm_compute. discriminate.
Defined.

Lemma any_suffix_mono (f g : string -> bool) (text : string) :
  (forall t, f t = true -> g t = true) ->
  any_suffix f text = true -> any_suffix g text = true.
Proof.
  intros Hfg. induction text as [|c text IH]; simpl; rewrite !orb_true_iff.
  - intros [?|?]; [left; by apply Hfg|done].
  - intros [?|?]; [left; by apply Hfg|right; by apply IH].
Qed.

Lemma any_suffix_here (f : string -> bool) (text : string) :
  f text = true -> any_suffix f text = true.
Proof. intros Hf. destruct text; simpl; by rewrite Hf. Qed.

Lemma like_literal_prefix (term text : string) :
  no_backslash term = true -> starts_with term text = true ->
  like (term +:+ "%") text = true.
Proof.
  revert text. induction term as [|c term IH]; intros text Hterm Hstarts.
  - apply like_percent.
  - simpl in Hterm. apply andb_prop in Hterm as [Hc%negb_true_iff Hterm].
    destruct text as [|d text]; [done|]. simpl in Hstarts.
    apply andb_prop in Hstarts as [->%Ascii.eqb_eq Hstarts].
    specialize (IH text Hterm Hstarts).
    change (String d term +:+ "%") with (String d (term +:+ "%")).
    destruct (Ascii.eqb d "%") eqn:Hpercent.
    { apply Ascii.eqb_eq in Hpercent as ->. rewrite like_star. simpl.
      rewrite (any_suffix_here _ _ IH). apply orb_true_r. }
    simpl. rewrite Hpercent, Hc.
    destruct (Ascii.eqb d "_"); [done|]. by rewrite Ascii.eqb_refl.
Qed.

(** A search misses no question whose text holds the term as it is
    written, when the term holds no backslash: such a question is among
    those returned, with status 200. *)
Theorem search_finds_literal (B : Backend) (req : request) (s : db)
    (members : list (string * json)) (term : string) (q : Question) :
  payload req = Json (JObj members) ->
  dict_get members "searchTerm" = Some (JStr term) ->
  term <> "" ->
  no_backslash term = true ->
  q ∈ db_questions s ->
  occurs_in term (q_question q) = true ->
  exists found,
    create_or_search_questions B req s
    = (Return (SearchResponse found (length (db_questions s))
                 (categories_returned (Category_format <$> db_categories s))), s)
    /\ Question_format q ∈ found.
Proof.
  intros Hreq Hterm Hnonempty Hsafe Hq Hoccurs.
  assert (like ("%" +:+ term +:+ "%") (q_question q) = true) as Hlike.
  { change ("%" +:+ term +:+ "%") with (String "%" (term +:+ "%")).
    rewrite like_star. revert Hoccurs. apply any_suffix_mono.
    intros t. by apply like_literal_prefix. }
  assert (truthy (JStr term) = true) as Htruthy.
  { simpl. by rewrite bool_decide_eq_false_2. }
  unfold create_or_search_questions, bind_h, lift, get_json.
  rewrite Hreq, (truthy_object _ _ _ Hterm). unfold get. rewrite Hterm.
  cbn [negb default id]. rewrite Htruthy.
  unfold search_questions, Question_contains, bind_h, query, abort, lift.
  set (found := filter _ (db_questions s)).
  assert (q ∈ found) as Hfound by (by apply list_elem_of_filter).
  clearbody found. destruct found as [|q0 rest]; [by apply not_elem_of_nil in Hfound|].
  exists (Question_format <$> q0 :: rest). split.
  - simpl. by rewrite order_by_id_length.
  - by apply list_elem_of_fmap_2.
Qed.

(** The term [100%] and a question that holds it. *)
Lemma search_finds_literal_witness :
  let q := mkQuestion 3 "Is 100% of 7 equal to 7?" "Yes" "1" 1 in
  let s := mkDb [q; mkQuestion 4 "Is 1000 a power of 10?" "Yes" "1" 1] [] in
  let members := [("searchTerm", JStr "100%")] in
  payload (post (JObj members)) = Json (JObj members)
  /\ dict_get members "searchTerm" = Some (JStr "100%")
  /\ "100%" <> ""
  /\ no_backslash "100%" = true
  /\ q ∈ db_questions s
  /\ occurs_in "100%" (q_question q) = true
  /\ exists found,
       create_or_search_questions strict (post (JObj members)) s
       = (Return (SearchResponse found (length (db_questions s))
                    (categories_returned (Category_format <$> db_categories s))), s)
       /\ Question_format q ∈ found.
Proof.
  intros q s members.
  assert (q ∈ db_questions s) as Hq by apply list_elem_of_here.
  split; [reflexivity|]. split; [reflexivity|]. split; [discriminate|].
  split; [reflexivity|]. split; [exact Hq|]. split; [reflexivity|].
  apply (search_finds_literal strict (post (JObj members)) s members "100%" q);
    [reflexivity | reflexivity | discriminate | reflexivity | exact Hq | reflexivity].
Defined.

(** ** The error mapper: the envelope *)

(** Whatever a handler ends in, the client receives either the payload
    with status 200 or an error body whose [success] is false and whose
    [error] is the status, one of 400, 404, 405, 422 and 500. *)
Theorem dispatch_envelope (o : outcome response) :
  (exists body, o = Return body /\ dispatch o = Ok 200 body)
  \/ (exists status m,
        dispatch o = Failed status (mkError false status m)
        /\ status ∈ [400; 404; 405; 422; 500]).
Proof.
  destruct o as [body|code d|e].
  - left. by exists body.
  - right. unfold dispatch, errorhandler, bad_request, ressource_not_found,
      method_not_allowed, unprocessable, internal_server_error, bind.
    destruct code; try destruct (getErrorMessage d _);
      eexists _, _; (split; [reflexivity|]); set_solver.
  - right. eexists _, _. split; [reflexivity|]. set_solver.
Qed.

(** A description that is an object with a [message] is rendered with that
    message, whatever value it is, for the codes 400, 404 and 422; the
    handler for 405 ignores the description. *)
Theorem supplied_message_rendered (code : http_error) (members : list (string * json))
    (m : json) :
  dict_get members "message" = Some m ->
  dispatch (Abort code (Supplied (JObj members)))
  = Failed (status_of code)
      (mkError false (status_of code)
         (match code with E405 => JStr "method not allowed" | _ => m end)).
Proof.
  intros Hm. unfold dispatch, errorhandler, bad_request, ressource_not_found,
    method_not_allowed, unprocessable, bind.
  destruct code; rewrite ?(getErrorMessage_message _ _ _ Hm); done.
Qed.

Lemma supplied_message_rendered_witness :
  dict_get [("message", JStr "No questions in selected page.")] "message"
  = Some (JStr "No questions in selected page.")
  /\ dispatch (Abort E404 no_questions_in_page)
     = Failed 404 (mkError false 404 (JStr "No questions in selected page.")).
Proof.
  split; [reflexivity|].
  apply (supplied_message_rendered E404
           [("message", JStr "No questions in selected page.")]
           (JStr "No questions in selected page.")).
  reflexivity.
Defined.

(** A description that is no object (a string, a number, a list, [null],
    a boolean) is rendered like no description at all: with the fallback
    text of the code. *)
Theorem plain_description_falls_back (code : http_error) (d : json) :
  (forall members, d <> JObj members) ->
  dispatch (Abort code (Supplied d)) = dispatch (Abort code DefaultText)
  /\ exists text,
       dispatch (Abort code (Supplied d))
       = Failed (status_of code) (mkError false (status_of code) (JStr text))
       /\ text ∈ ["bad request"; "resource not found"; "method not allowed"; "unprocessable"].
Proof.
  intros Hshape.
  assert (forall text, getErrorMessage (Supplied d) text = Return (JStr text)) as Hmsg.
  { intros text. destruct d as [| | | | |members]; try done. by destruct (Hshape members). }
  unfold dispatch, errorhandler, bad_request, ressource_not_found, method_not_allowed,
    unprocessable, bind.
  split.
  - destruct code; by rewrite ?Hmsg.
  - destruct code; rewrite ?Hmsg; eexists; (split; [reflexivity|]); set_solver.
Qed.

Lemma plain_description_falls_back_witness :
  (forall members, JStr "no such question" <> JObj members)
  /\ dispatch (Abort E404 (Supplied (JStr "no such question")))
     = dispatch (Abort E404 DefaultText)
  /\ exists text,
       dispatch (Abort E404 (Supplied (JStr "no such question")))
       = Failed (status_of E404) (mkError false (status_of E404) (JStr text))
       /\ text ∈ ["bad request"; "resource not found"; "method not allowed"; "unprocessable"].
Proof.
  split; [discriminate|].
  apply (plain_description_falls_back E404 (JStr "no such question")). discriminate.
Defined.

(** ** The quiz: no index out of range *)

Lemma get_raises (body : json) (key : string) (e : pyexc) :
  get body key = Raise e -> e = AttributeError.
Proof. destruct body; simpl; congruence. Qed.


Lemma quiz_candidates_raises (B : Backend) (previous category : json) (s : db) (e : pyexc) :
  quiz_candidates B previous category s = Raise e -> e <> IndexError.
Proof.
  unfold quiz_candidates, category_given, in_category, notin_, bind, subscript.
  repeat case_match; congruence.
Qed.


(** Whatever the request, the quiz never ends in an [IndexError]. *)
Lemma play_quiz_no_index_error (B : Backend) (entropy : Z) (req : request) (s : db) :
  (play_quiz B entropy req s).1 <> Raise IndexError.
Proof.
  unfold play_quiz, bind_h, abort, lift, get_json.
  destruct (payload req) as [| |body]; [done..|].
  destruct (truthy body); [|done]. simpl.
  destruct (get body "previous_questions") as [previous| |e] eqn:Hprevious;
    [|done|by rewrite (get_raises _ _ _ Hprevious)].
  destruct (get body "quiz_category") as [category| |e'] eqn:Hcategory;
    [|done|by rewrite (get_raises _ _ _ Hcategory)].
  destruct (quiz_candidates B previous category s) as [candidates| |e''] eqn:Hcandidates;
    [|done|].
  - simpl. destruct candidates as [|q candidates]; [done|].
    destruct (randint_range entropy 0
                (Z.of_nat (length (map Question_format (q :: candidates))) - 1))
      as (r & -> & Hr); [simpl; lia|].
    by destruct (py_index_in_range (map Question_format (q :: candidates)) r)
      as (x & -> & _); [lia|].
  - simpl. intros [= ->]. by apply (quiz_candidates_raises _ _ _ _ _ Hcandidates).
Qed.

(** ** The error mapper: the descriptions the handlers issue *)


Lemma readable_message (code : http_error) (field : string) :
  code <> E405 ->
  readable code (Supplied (JObj [("message", JStr field)])).
Proof. intros Hcode. right. eexists _, _. by destruct code. Qed.





(** The two kinds of description at work: the text of a framework error,
    and the message of line 231. *)
Example error_descriptions_rendered_cases :
  dispatch (Abort E404 (Supplied (JStr "The requested URL was not found on the server.")))
  = Failed 404 (mkError false 404 (JStr "resource not found"))
  /\ (get_questions_from_categories (mkRequest (Some 2) NoJson) 1 trivia).1
     = Abort E404 no_questions_in_page
  /\ readable E404 no_questions_in_page.
Proof. split; [done|]. split; [done|]. by apply readable_message. Qed.
